(** * TradelineAI: the performance aggregator and the agent credit history

    A shallow embedding of the scoring core of [models.py]:
    [Repayment.is_late], [DefiRepayment.days_overdue],
    [TradelinePerformance.record_tradeline_performance],
    [AIAgent.update_credit_score] and [AIAgent.get_credit_score_trend].

    Conventions.
    - A [db.Float] column and a Python [float] are IEEE-754 binary64 numbers:
      Rocq's primitive [float].  An [int] that meets a [float] in an
      arithmetic expression is converted first, as Python does.
    - A [db.Integer] column and a Python [int] are [Z].
    - A naive [datetime] is the number of microseconds since
      0001-01-01T00:00:00, and a [timedelta] a number of microseconds.
    - A nullable column is an [option].
    - A query result ([.all()]) is the list of matching rows in table order.
    - A Python exception is a constructor of [exn]; code that may raise
      returns a [result]. *)

From Stdlib Require Import ZArith List String Ascii Bool Lia Floats.
From Stdlib Require Import Decimal DecimalString DecimalZ.
Import ListNotations.

Local Open Scope string_scope.
Local Open Scope Z_scope.

(** ** Python: exceptions, arithmetic, dates *)

Module Py.

(** The exceptions that the code below can raise; [NoReferencedTableError]
    is SQLAlchemy's, the others are Python's own. *)
Inductive exn : Type :=
| AttributeError
| TypeError
| ZeroDivisionError
| JSONDecodeError
| NoReferencedTableError.

Inductive result (A : Type) : Type :=
| Ok (a : A)
| Raise (e : exn).

Arguments Ok {A} a.
Arguments Raise {A} e.

Definition bind {A B : Type} (m : result A) (k : A -> result B) : result B :=
  match m with
  | Ok a => k a
  | Raise e => Raise e
  end.

(** [[f(x) for x in l]] where [f] may raise: the first exception stops the
    comprehension. *)
Fixpoint comprehension {A B : Type} (f : A -> result B) (l : list A)
  : result (list B) :=
  match l with
  | [] => Ok []
  | x :: l' =>
      bind (f x) (fun y => bind (comprehension f l') (fun ys => Ok (y :: ys)))
  end.

(** [len(l)] *)
Definition len {A : Type} (l : list A) : Z := Z.of_nat (List.length l).

(** Truth value of a list: [if l], [if not l]. *)
Definition truthy {A : Type} (l : list A) : bool :=
  match l with
  | [] => false
  | _ :: _ => true
  end.

(** [float(n)] for a non-negative [int] below 2^63 (counts and the capped
    late-payment points are far below). *)
Definition float_of_int (n : Z) : float := PrimFloat.of_uint63 (Uint63.of_Z n).

(** [sum(l)] over floats: the start value is the int 0, then left to right.
    (CPython 3.12 and later compensate the rounding of a float sum; no
    statement below depends on how the sum rounds, and the sums of the
    scenarios are exact.) *)
Definition sum (l : list float) : float :=
  fold_left PrimFloat.add l 0%float.

(** [sum(l)] over ints. *)
Definition sum_int (l : list Z) : Z := fold_left Z.add l 0.

(** [x / y] on floats raises when the divisor is zero (of either sign). *)
Definition truediv (x y : float) : result float :=
  if PrimFloat.eqb y 0%float then Raise ZeroDivisionError
  else Ok (PrimFloat.div x y).

(** [x / n] for a float [x] and an int [n]: [n] is converted to a float, and
    the divisor is zero exactly when [n] is. *)
Definition truediv_int (x : float) (n : Z) : result float :=
  if n =? 0 then Raise ZeroDivisionError
  else Ok (PrimFloat.div x (float_of_int n)).

(** [max(a, b)]: the first argument unless the second is greater. *)
Definition max (a b : float) : float :=
  if PrimFloat.ltb a b then b else a.

(** [min(a, b)] on ints. *)
Definition min (a b : Z) : Z := if b <? a then b else a.

(** *** datetime *)

Definition datetime : Type := Z.
Definition timedelta : Type := Z.

Definition us_per_day : Z := 86400000000.

(** [timedelta(days=d)] *)
Definition days (d : Z) : timedelta := d * us_per_day.

(** [delta.days]: whole days, rounded towards minus infinity. *)
Definition td_days (delta : timedelta) : Z := delta / us_per_day.

Definition is_leap (y : Z) : bool :=
  (y mod 4 =? 0) && (negb (y mod 100 =? 0) || (y mod 400 =? 0)).

Definition days_before_year (y : Z) : Z :=
  let y' := y - 1 in y' * 365 + y' / 4 - y' / 100 + y' / 400.

Definition days_in_month (y m : Z) : Z :=
  if m =? 2 then (if is_leap y then 29 else 28)
  else if (m =? 4) || (m =? 6) || (m =? 9) || (m =? 11) then 30
  else 31.

Fixpoint days_before_month_upto (y : Z) (m : nat) : Z :=
  match m with
  | O => 0
  | S m' => days_before_month_upto y m' + days_in_month y (Z.of_nat m)
  end.

(** The proleptic Gregorian ordinal of a date, 0001-01-01 being day 1. *)
Definition ymd2ord (y m d : Z) : Z :=
  days_before_year y + days_before_month_upto y (Z.to_nat (m - 1)) + d.

(** [datetime(y, m, d)] at midnight. *)
Definition date (y m d : Z) : datetime := (ymd2ord y m d - 1) * us_per_day.

End Py.

Import Py.

Declare Scope py_scope.
Delimit Scope py_scope with py.
Notation "x <- m ;; k" := (Py.bind m (fun x => k))
  (at level 100, m at next level, right associativity) : py_scope.
Local Open Scope py_scope.

(** [o == s] for a nullable string column. *)
Definition str_is (o : option string) (s : string) : bool :=
  match o with
  | Some s' => String.eqb s' s
  | None => false
  end.

(** ** The models *)

Module Tradeline.

Record t : Type := mk {
  id : Z;
  credit_limit : float;
  available_limit : float;
  interest_rate : option float;
  issuer : option string;
  account_type : option string
}.

End Tradeline.

Module AIAgentAllocation.

Record t : Type := mk {
  id : Z;
  agent_id : Z;
  tradeline_id : Z;
  allocation_date : option datetime;
  credit_limit : float;
  is_active : option bool
}.

End AIAgentAllocation.

Module Transaction.

Record t : Type := mk {
  id : Z;
  agent_id : Z;
  tradeline_allocation_id : Z;
  amount : float;
  transaction_date : option datetime;
  status : option string;
  balance_after : option float
}.

End Transaction.

Module Repayment.

Record t : Type := mk {
  id : Z;
  agent_id : Z;
  tradeline_allocation_id : Z;
  amount : float;
  due_date : option datetime;
  payment_date : option datetime;
  status : option string
}.

(** Check if payment is late but has been made. *)
Definition is_late (self : t) : bool :=
  match payment_date self, due_date self with
  | Some p, Some d => d <? p
  | _, _ => false
  end.

(** Check if payment is missed (past due date with no payment). *)
Definition is_missed (now : datetime) (self : t) : bool :=
  match payment_date self, due_date self with
  | None, Some d => d <? now
  | _, _ => false
  end.

(** Update the status based on payment state. *)
Definition update_status (now : datetime) (self : t) : t :=
  let status' :=
    match payment_date self with
    | Some _ => if is_late self then "late" else "paid"
    | None => if is_missed now self then "missed" else "scheduled"
    end in
  mk (id self) (agent_id self) (tradeline_allocation_id self) (amount self)
     (due_date self) (payment_date self) (Some status').

(** The class body (models.py, 331-365) defines [is_late], [is_missed],
    [update_status] and [__repr__] and nothing else: a Repayment has no
    attribute [days_overdue], and the call [r.days_overdue()] raises. *)
Definition days_overdue (self : t) : result Z := Raise AttributeError.

End Repayment.

Module DefiRepayment.

Record t : Type := mk {
  id : Z;
  loan_id : Z;
  payment_number : Z;
  amount : float;
  due_date : datetime;
  payment_date : option datetime;
  status : option string
}.

(** Check if this payment is late. *)
Definition is_late (now : datetime) (self : t) : bool :=
  match payment_date self with
  | None => due_date self <? now
  | Some _ => false
  end.

(** Calculate days overdue for this payment. *)
Definition days_overdue (now : datetime) (self : t) : Z :=
  if is_late now self then td_days (now - due_date self) else 0.

End DefiRepayment.

(** ** The store *)

Module TradelinePerformanceRow.

(** The columns of [TradelinePerformance]. *)
Record t : Type := mk {
  id : Z;
  tradeline_id : Z;
  record_date : datetime;
  current_balance : float;
  available_credit : float;
  utilization_rate : float;
  transaction_count : Z;
  transaction_volume : float;
  avg_transaction_amount : float;
  total_repayments : float;
  repayments_on_time : Z;
  repayments_late : Z;
  payment_ratio : float;
  risk_score : float;
  days_delinquent : Z;
  interest_accrued : float
}.

End TradelinePerformanceRow.

(** The tables the scoring core reads and writes. *)
Record DB : Type := mkDB {
  tradelines : list Tradeline.t;
  allocations : list AIAgentAllocation.t;
  transactions : list Transaction.t;
  repayments : list Repayment.t;
  performance_records : list TradelinePerformanceRow.t
}.

(** [x in ids], also the SQL [column IN (ids)]. *)
Definition in_ (x : Z) (ids : list Z) : bool := existsb (Z.eqb x) ids.

(** [Tradeline.query.get(tradeline_id)] *)
Definition Tradeline_get (s : DB) (tradeline_id : Z) : option Tradeline.t :=
  find (fun tl => Tradeline.id tl =? tradeline_id) (tradelines s).

(** [AIAgentAllocation.query.get(allocation_id)] *)
Definition AIAgentAllocation_get (s : DB) (allocation_id : Z)
  : option AIAgentAllocation.t :=
  find (fun a => AIAgentAllocation.id a =? allocation_id) (allocations s).

(** The next value of an autoincrement primary key. *)
Definition next_id (ids : list Z) : Z := 1 + fold_left Z.max ids 0.

(** [db.session.add(performance); db.session.commit()] *)
Definition add_performance (p : TradelinePerformanceRow.t) (s : DB) : DB :=
  mkDB (tradelines s) (allocations s) (transactions s) (repayments s)
       (performance_records s ++ [p]).

Module TradelinePerformance.

Include TradelinePerformanceRow.

(** [AIAgentAllocation.query.filter_by(tradeline_id=tradeline_id,
    is_active=True).all()] *)
Definition active_allocations (s : DB) (tradeline_id : Z)
  : list AIAgentAllocation.t :=
  filter (fun a =>
            (AIAgentAllocation.tradeline_id a =? tradeline_id)
            && match AIAgentAllocation.is_active a with
               | Some true => true
               | _ => false
               end)
         (allocations s).

(** [Transaction.query.filter(tradeline_allocation_id.in_(allocation_ids),
    status == 'completed').all()] *)
Definition completed_transactions (s : DB) (allocation_ids : list Z)
  : list Transaction.t :=
  filter (fun tx =>
            in_ (Transaction.tradeline_allocation_id tx) allocation_ids
            && str_is (Transaction.status tx) "completed")
         (transactions s).

(** The same query with [transaction_date >= utcnow() - timedelta(days=30)]. *)
Definition recent_transactions (s : DB) (now : datetime)
  (allocation_ids : list Z) : list Transaction.t :=
  filter (fun tx =>
            in_ (Transaction.tradeline_allocation_id tx) allocation_ids
            && str_is (Transaction.status tx) "completed"
            && match Transaction.transaction_date tx with
               | Some d => now - days 30 <=? d
               | None => false
               end)
         (transactions s).

(** [Repayment.query.filter(tradeline_allocation_id.in_(allocation_ids),
    status.in_(['paid', 'late'])).all()] *)
Definition settled_repayments (s : DB) (allocation_ids : list Z)
  : list Repayment.t :=
  filter (fun r =>
            in_ (Repayment.tradeline_allocation_id r) allocation_ids
            && (str_is (Repayment.status r) "paid"
                || str_is (Repayment.status r) "late"))
         (repayments s).

(** [r.status == 'paid' and not r.is_late()] *)
Definition on_time (r : Repayment.t) : bool :=
  str_is (Repayment.status r) "paid" && negb (Repayment.is_late r).

(** [r.status == 'late' or r.is_late()] *)
Definition late (r : Repayment.t) : bool :=
  str_is (Repayment.status r) "late" || Repayment.is_late r.

(** The three components of the risk score (lines 627-629). *)
Definition risk_utilization (utilization_rate : float) : float :=
  (utilization_rate * 30)%float.

Definition risk_late_payments (repayments_late : Z) : Z :=
  Py.min 40 (repayments_late * 10).

Definition risk_payment_ratio (payment_ratio : float) : float :=
  Py.max 0%float (30 - payment_ratio * 30)%float.

(** Creates a new performance record for a tradeline.  [now] is the reading
    of [datetime.utcnow()]; the result is the returned object (or [None])
    and the store after the call. *)
Definition record_tradeline_performance (s : DB) (now : datetime)
  (tradeline_id : Z) : result (option t * DB) :=
  match Tradeline_get s tradeline_id with
  | None => Ok (None, s)
  | Some tradeline =>
    let allocations := active_allocations s tradeline_id in
    let allocation_ids := map AIAgentAllocation.id allocations in
    if negb (truthy allocation_ids) then Ok (None, s) else
    let transactions := completed_transactions s allocation_ids in
    let total_balance := Py.sum (map Transaction.amount transactions) in
    let current_balance := total_balance in
    let available_credit :=
      (Tradeline.credit_limit tradeline - total_balance)%float in
    utilization_rate <-
      (if (0 <? Tradeline.credit_limit tradeline)%float
       then truediv total_balance (Tradeline.credit_limit tradeline)
       else Ok 0%float) ;;
    let recent_transactions := recent_transactions s now allocation_ids in
    let transaction_count := len recent_transactions in
    let transaction_volume :=
      Py.sum (map Transaction.amount recent_transactions) in
    avg_transaction_amount <-
      (if 0 <? transaction_count
       then truediv_int transaction_volume transaction_count
       else Ok 0%float) ;;
    let repayments := settled_repayments s allocation_ids in
    let total_repayments := Py.sum (map Repayment.amount repayments) in
    let repayments_on_time := len (filter on_time repayments) in
    let repayments_late := len (filter late repayments) in
    payment_ratio <-
      (if (0 <? total_balance)%float
       then truediv total_repayments total_balance
       else Ok 1%float) ;;
    let late_repayments := filter late repayments in
    total_days_late <-
      (if truthy late_repayments
       then ds <- comprehension Repayment.days_overdue late_repayments ;;
            Ok (sum_int ds)
       else Ok 0) ;;
    let days_delinquent := total_days_late in
    let risk_score :=
      (risk_utilization utilization_rate
       + float_of_int (risk_late_payments repayments_late)
       + risk_payment_ratio payment_ratio)%float in
    interest_accrued <-
      (match Tradeline.interest_rate tradeline with
       | None => Raise TypeError
       | Some interest_rate =>
           r <- truediv interest_rate 100%float ;;
           d <- truediv (total_balance * r)%float 365%float ;;
           Ok (d * 30)%float
       end) ;;
    let performance :=
      mk (next_id (map id (performance_records s))) tradeline_id now
         current_balance available_credit utilization_rate
         transaction_count transaction_volume avg_transaction_amount
         total_repayments repayments_on_time repayments_late payment_ratio
         risk_score days_delinquent interest_accrued in
    Ok (Some performance, add_performance performance s)
  end.

End TradelinePerformance.

(** ** JSON values

    What [json.loads] returns and [json.dumps] takes: [None], booleans,
    integers, strings, lists and dictionaries (in insertion order). *)

#[local] Unset Elimination Schemes.
Inductive json : Type :=
| JNull
| JBool (b : bool)
| JInt (n : Z)
| JStr (s : string)
| JList (items : list json)
| JDict (members : list (string * json)).
#[local] Set Elimination Schemes.

(** Truth value of a parsed value: [if v], [not v]. *)
Definition json_truthy (v : json) : bool :=
  match v with
  | JNull => false
  | JBool b => b
  | JInt n => negb (n =? 0)
  | JStr s => negb (String.eqb s "")
  | JList items => truthy items
  | JDict members => truthy members
  end.

(** [len(v)]: a [TypeError] on [None], a boolean or an integer. *)
Definition json_len (v : json) : result Z :=
  match v with
  | JStr s => Ok (Z.of_nat (String.length s))
  | JList items => Ok (len items)
  | JDict members => Ok (len members)
  | _ => Raise TypeError
  end.

(** [d[key]] on a dictionary; [None] stands for the failed lookup. *)
Fixpoint json_get (key : string) (members : list (string * json)) : option json :=
  match members with
  | [] => None
  | (k, v) :: members' => if String.eqb k key then Some v else json_get key members'
  end.

(** ** The agent *)

(** The dictionary [agent_data] that [update_credit_score] hands to the
    scorer, one record per shape of entry. *)
Module AgentData.

Record tradeline_item : Type := mk_tradeline {
  tl_id : Z;
  tl_credit_limit : float;
  tl_type : option string;
  tl_issuer : option string;
  tl_opened_date : option datetime
}.

Record transaction_item : Type := mk_transaction {
  tx_id : Z;
  tx_amount : float;
  tx_tradeline_id : option Z;
  tx_transaction_date : option datetime;
  tx_status : option string;
  tx_balance_after : option float
}.

Record repayment_item : Type := mk_repayment {
  rep_id : Z;
  rep_amount : float;
  rep_due_date : option datetime;
  rep_payment_date : option datetime;
  rep_is_late : bool
}.

Record t : Type := mk {
  id : Z;
  created_at : option datetime;
  tradelines : list tradeline_item;
  transactions : list transaction_item;
  repayments : list repayment_item
}.

End AgentData.

(** The dictionary the scorer returns: [score_data['score']] and the
    component breakdown. *)
Record score_data : Type := mk_score_data {
  score : Z;
  components : json
}.

Module AIAgent.

Record t : Type := mk {
  id : Z;
  created_date : option datetime;
  credit_score : option Z;
  credit_score_updated : option datetime;
  credit_score_history : option string
}.

(** The relationships [self.tradeline_allocations], [self.transactions] and
    [self.repayments]. *)
Definition tradeline_allocations (s : DB) (self : t) : list AIAgentAllocation.t :=
  filter (fun a => AIAgentAllocation.agent_id a =? id self) (allocations s).

Definition transactions (s : DB) (self : t) : list Transaction.t :=
  filter (fun tx => Transaction.agent_id tx =? id self) (transactions s).

Definition repayments (s : DB) (self : t) : list Repayment.t :=
  filter (fun r => Repayment.agent_id r =? id self) (repayments s).

(** The three comprehensions of [update_credit_score] (lines 208-238). *)
Definition tradeline_item (s : DB) (allocation : AIAgentAllocation.t)
  : AgentData.tradeline_item :=
  let tradeline := Tradeline_get s (AIAgentAllocation.tradeline_id allocation) in
  AgentData.mk_tradeline
    (AIAgentAllocation.tradeline_id allocation)
    (AIAgentAllocation.credit_limit allocation)
    (match tradeline with Some tl => Tradeline.account_type tl | None => None end)
    (match tradeline with Some tl => Tradeline.issuer tl | None => None end)
    (AIAgentAllocation.allocation_date allocation).

Definition transaction_item (s : DB) (tx : Transaction.t)
  : AgentData.transaction_item :=
  let allocation :=
    AIAgentAllocation_get s (Transaction.tradeline_allocation_id tx) in
  AgentData.mk_transaction
    (Transaction.id tx)
    (Transaction.amount tx)
    (match allocation with
     | Some a => Some (AIAgentAllocation.tradeline_id a)
     | None => None
     end)
    (Transaction.transaction_date tx)
    (Transaction.status tx)
    (Transaction.balance_after tx).

Definition repayment_item (rep : Repayment.t) : AgentData.repayment_item :=
  AgentData.mk_repayment
    (Repayment.id rep)
    (Repayment.amount rep)
    (Repayment.due_date rep)
    (Repayment.payment_date rep)
    (match Repayment.payment_date rep, Repayment.due_date rep with
     | Some p, Some d => d <? p
     | _, _ => false
     end).

Definition agent_data (s : DB) (self : t) : AgentData.t :=
  AgentData.mk
    (id self)
    (created_date self)
    (map (tradeline_item s) (tradeline_allocations s self))
    (map (transaction_item s) (transactions s self))
    (map repayment_item (repayments s self)).

(** Modelled from the spec: the entry that
    [AgentCreditScoring.track_agent_score_history] records.  That function
    is defined in [modules/agent_credit.py], which is not among the sources;
    the spec has the history as an ordered list of
    {timestamp, score, components}. *)
Definition history_entry (now : datetime) (sd : score_data) : json :=
  JDict [("timestamp", JInt now); ("score", JInt (score sd));
         ("components", components sd)].

(** Modelled from the spec: [AgentCreditScoring.track_agent_score_history]
    of [modules/agent_credit.py], which is not among the sources.  The spec
    has the returned score data appended to the history, with no cap on its
    length.  A value that is not a list has no [append]. *)
Definition track_agent_score_history (agent_id : Z) (sd : score_data)
  (history : json) (now : datetime) : result json :=
  match history with
  | JList items => Ok (JList (items ++ [history_entry now sd]))
  | _ => Raise AttributeError
  end.

(** Modelled from the spec: the direction of a trend, of which the spec
    says that [analyze_score_trend] computes a direction and a magnitude. *)
Inductive direction : Type := Improving | Declining | Stable.

(** Modelled from the spec: the result of [analyze_score_trend], the deltas
    of consecutive scores with their total and its direction. *)
Record trend : Type := mk_trend {
  deltas : list Z;
  change : Z;
  trend_direction : direction
}.

(** Modelled from the spec: [entry['score']] of a history entry. *)
Definition entry_score (entry : json) : result Z :=
  match entry with
  | JDict members =>
      match json_get "score" members with
      | Some (JInt n) => Ok n
      | _ => Raise TypeError
      end
  | _ => Raise TypeError
  end.

(** Modelled from the spec: the deltas of consecutive scores. *)
Fixpoint consecutive_deltas (scores : list Z) : list Z :=
  match scores with
  | a :: ((b :: _) as rest) => (b - a) :: consecutive_deltas rest
  | _ => []
  end.

(** Modelled from the spec: [AgentCreditScoring.analyze_score_trend] of
    [modules/agent_credit.py], which is not among the sources.  The spec
    has it compute a trend (direction and magnitude) from the deltas of
    consecutive scores of the history. *)
Definition analyze_score_trend (history : json) : result (option trend) :=
  match history with
  | JList items =>
      scores <- comprehension entry_score items ;;
      let ds := consecutive_deltas scores in
      let total := sum_int ds in
      Ok (Some (mk_trend ds total
                  (if 0 <? total then Improving
                   else if total <? 0 then Declining else Stable)))
  | _ => Raise TypeError
  end.

Section Scoring.

(** Python's [json] module, of which the code uses [loads] and [dumps]. *)
Variable json_loads : string -> result json.
Variable json_dumps : json -> string.

(** [AgentCreditScoring.calculate_agent_credit_score], defined in
    [modules/agent_credit.py]: its formula is not among the sources and
    is left open. *)
Variable calculate_agent_credit_score : AgentData.t -> score_data.

(** The block both methods start with:
    [try: history = json.loads(h) if h else []]
    [except (json.JSONDecodeError, TypeError): history = []]. *)
Definition load_history (self : t) : result json :=
  match credit_score_history self with
  | None => Ok (JList [])
  | Some text =>
      if String.eqb text "" then Ok (JList [])
      else match json_loads text with
           | Ok history => Ok history
           | Raise JSONDecodeError => Ok (JList [])
           | Raise TypeError => Ok (JList [])
           | Raise e => Raise e
           end
  end.

(** Calculate and update the AI agent's credit score based on its
    financial activities.  Returns the score data and the agent as the
    call leaves it. *)
Definition update_credit_score (s : DB) (now : datetime) (self : t)
  : result (score_data * t) :=
  let agent_data := agent_data s self in
  let score_data := calculate_agent_credit_score agent_data in
  let self := mk (id self) (created_date self) (Some (score score_data))
                 (Some now) (credit_score_history self) in
  history <- load_history self ;;
  history <- track_agent_score_history (id self) score_data history now ;;
  Ok (score_data,
      mk (id self) (created_date self) (credit_score self)
         (credit_score_updated self) (Some (json_dumps history))).

(** Get the trend analysis of the agent's credit score over time:
    [None] if the history is insufficient. *)
Definition get_credit_score_trend (self : t) : result (option trend) :=
  history <- load_history self ;;
  if negb (json_truthy history) then Ok None else
  n <- json_len history ;;
  if n <? 2 then Ok None else
  analyze_score_trend history.

(** [update_credit_score] called once per element of [calls], each with
    the store and the clock of its moment. *)
Fixpoint update_credit_score_times (calls : list (DB * datetime)) (self : t)
  : result t :=
  match calls with
  | [] => Ok self
  | (s, now) :: calls' =>
      r <- update_credit_score s now self ;;
      update_credit_score_times calls' (snd r)
  end.

End Scoring.

End AIAgent.

(** ** Vocabulary of the statements *)

(** A transaction is on an active allocation of the tradeline when some
    allocation row of that tradeline, flagged active, carries the
    transaction's allocation id. *)
Definition on_active_allocation (s : DB) (tid : Z) (tx : Transaction.t) : bool :=
  existsb (fun a =>
             (AIAgentAllocation.id a =? Transaction.tradeline_allocation_id tx)
             && (AIAgentAllocation.tradeline_id a =? tid)
             && match AIAgentAllocation.is_active a with
                | Some true => true
                | _ => false
                end)
          (allocations s).

(** ** A reference JSON codec

    The statements on the score history assume of [json.loads] and
    [json.dumps] only that the first reads back what the second wrote and
    rejects the empty text.  This codec, for the values of [json] in the
    layout [json.dumps] prints by default, meets both assumptions; the
    scenarios run on it. *)

Module RefJson.

Local Open Scope char_scope.

Definition dquote : ascii := "034".

Definition is_ws (c : ascii) : bool :=
  (c =? " ") || (c =? "009") || (c =? "010") || (c =? "013").

Definition is_num (c : ascii) : bool :=
  (c =? "-") || ((48 <=? nat_of_ascii c)%nat && (nat_of_ascii c <=? 57)%nat).

Local Open Scope string_scope.

Fixpoint skip_ws (s : string) : string :=
  match s with
  | String c r => if is_ws c then skip_ws r else s
  | EmptyString => s
  end.

(** [strip kw s]: what follows the keyword [kw] at the head of [s]. *)
Fixpoint strip (kw s : string) : option string :=
  match kw, s with
  | EmptyString, _ => Some s
  | String a kw', String b s' => if Ascii.eqb a b then strip kw' s' else None
  | String _ _, EmptyString => None
  end.

(** Integers, in decimal. *)
Definition print_int (n : Z) : string := NilZero.string_of_int (Z.to_int n).

Fixpoint span_num (s : string) : string * string :=
  match s with
  | String c r =>
      if is_num c then let (tok, rest) := span_num r in (String c tok, rest)
      else (EmptyString, s)
  | EmptyString => (EmptyString, EmptyString)
  end.

Definition parse_int (s : string) : option (Z * string) :=
  let (tok, rest) := span_num s in
  match NilZero.int_of_string tok with
  | Some d => Some (Z.of_int d, rest)
  | None => None
  end.

(** Strings: the quote and the backslash are escaped with a backslash. *)
Fixpoint escape (s : string) : string :=
  match s with
  | EmptyString => EmptyString
  | String c r =>
      if Ascii.eqb c dquote || Ascii.eqb c "\"
      then String "\" (String c (escape r))
      else String c (escape r)
  end.

Definition quote (s : string) : string :=
  String dquote (escape s ++ String dquote EmptyString).

Definition cons_fst (c : ascii) (r : option (string * string))
  : option (string * string) :=
  match r with
  | Some (a, b) => Some (String c a, b)
  | None => None
  end.

(** [unquote s]: the string that ends at the first bare quote of [s], and
    what follows that quote. *)
Fixpoint unquote (s : string) : option (string * string) :=
  match s with
  | EmptyString => None
  | String c r =>
      if Ascii.eqb c dquote then Some (EmptyString, r)
      else if Ascii.eqb c "\" then
        match r with
        | String d r' =>
            if Ascii.eqb d dquote || Ascii.eqb d "\"
            then cons_fst d (unquote r') else None
        | EmptyString => None
        end
      else cons_fst c (unquote r)
  end.

(** [json.dumps]: items separated by a comma and a space, keys and values
    by a colon and a space. *)
Fixpoint dumps (v : json) : string :=
  match v with
  | JNull => "null"
  | JBool true => "true"
  | JBool false => "false"
  | JInt n => print_int n
  | JStr s => quote s
  | JList items =>
      "[" ++ (fix elems (l : list json) : string :=
                match l with
                | [] => "]"
                | x :: l' =>
                    dumps x ++ match l' with
                               | [] => "]"
                               | _ :: _ => ", " ++ elems l'
                               end
                end) items
  | JDict members =>
      "{" ++ (fix mems (l : list (string * json)) : string :=
                match l with
                | [] => "}"
                | (k, x) :: l' =>
                    quote k ++ ": " ++ dumps x
                    ++ match l' with
                       | [] => "}"
                       | _ :: _ => ", " ++ mems l'
                       end
                end) members
  end.

Definition cons_item {A : Type} (x : A) (r : option (list A * string))
  : option (list A * string) :=
  match r with
  | Some (l, rest) => Some (x :: l, rest)
  | None => None
  end.

(** A recursive-descent parser, one step per syntactic class; the
    arguments [value], [elements] and [members] parse what is nested. *)
Definition value_step
  (elements : string -> option (list json * string))
  (members : string -> option (list (string * json) * string))
  (s : string) : option (json * string) :=
  match skip_ws s with
  | EmptyString => None
  | String c r =>
      if Ascii.eqb c "[" then
        match elements r with
        | Some (items, rest) => Some (JList items, rest)
        | None =>
            match strip "]" (skip_ws r) with
            | Some rest => Some (JList [], rest)
            | None => None
            end
        end
      else if Ascii.eqb c "{" then
        match members r with
        | Some (ms, rest) => Some (JDict ms, rest)
        | None =>
            match strip "}" (skip_ws r) with
            | Some rest => Some (JDict [], rest)
            | None => None
            end
        end
      else if Ascii.eqb c dquote then
        match unquote r with
        | Some (str, rest) => Some (JStr str, rest)
        | None => None
        end
      else if is_num c then
        match parse_int (String c r) with
        | Some (n, rest) => Some (JInt n, rest)
        | None => None
        end
      else
        match strip "null" (String c r) with
        | Some rest => Some (JNull, rest)
        | None =>
            match strip "true" (String c r) with
            | Some rest => Some (JBool true, rest)
            | None =>
                match strip "false" (String c r) with
                | Some rest => Some (JBool false, rest)
                | None => None
                end
            end
        end
  end.

(** After a value: a comma and more, or the closing character. *)
Definition more_or_close {A : Type} (close : ascii) (x : A)
  (more : string -> option (list A * string)) (s : string)
  : option (list A * string) :=
  match skip_ws s with
  | EmptyString => None
  | String c r =>
      if Ascii.eqb c "," then cons_item x (more r)
      else if Ascii.eqb c close then Some ([x], r)
      else None
  end.

Definition elements_step
  (value : string -> option (json * string))
  (elements : string -> option (list json * string))
  (s : string) : option (list json * string) :=
  match value s with
  | None => None
  | Some (x, r) => more_or_close "]" x elements r
  end.

Definition members_step
  (value : string -> option (json * string))
  (members : string -> option (list (string * json) * string))
  (s : string) : option (list (string * json) * string) :=
  match strip (String dquote EmptyString) (skip_ws s) with
  | None => None
  | Some r =>
      match unquote r with
      | None => None
      | Some (k, r1) =>
          match strip ":" (skip_ws r1) with
          | None => None
          | Some r2 =>
              match value r2 with
              | None => None
              | Some (x, r3) => more_or_close "}" (k, x) members r3
              end
          end
      end
  end.

(** [fuel] bounds the nesting and the number of items. *)
Fixpoint parse_value (fuel : nat) (s : string) : option (json * string) :=
  match fuel with
  | O => None
  | S fuel' => value_step (parse_elements fuel') (parse_members fuel') s
  end

with parse_elements (fuel : nat) (s : string) : option (list json * string) :=
  match fuel with
  | O => None
  | S fuel' => elements_step (parse_value fuel') (parse_elements fuel') s
  end

with parse_members (fuel : nat) (s : string)
  : option (list (string * json) * string) :=
  match fuel with
  | O => None
  | S fuel' => members_step (parse_value fuel') (parse_members fuel') s
  end.

(** [json.loads]: one value, then nothing but white space. *)
Definition loads (s : string) : result json :=
  match parse_value (String.length s) s with
  | Some (v, rest) =>
      match skip_ws rest with
      | EmptyString => Ok v
      | String _ _ => Raise JSONDecodeError
      end
  | None => Raise JSONDecodeError
  end.

(** *** What the read-back proof is stated with *)

(** What may follow a value: not a character of a number. *)
Definition delimited (rest : string) : bool :=
  match rest with
  | EmptyString => true
  | String c _ => negb (is_num c)
  end.

Fixpoint all_num (s : string) : bool :=
  match s with
  | EmptyString => true
  | String c r => is_num c && all_num r
  end.

(** The fuel a value needs: one unit per value and per item. *)
Fixpoint size (v : json) : nat :=
  match v with
  | JList items =>
      S ((fix go (l : list json) : nat :=
            match l with
            | [] => O
            | x :: l' => S (size x + go l')
            end) items)
  | JDict members =>
      S ((fix go (l : list (string * json)) : nat :=
            match l with
            | [] => O
            | (_, x) :: l' => S (size x + go l')
            end) members)
  | _ => 1
  end.

Fixpoint size_items (l : list json) : nat :=
  match l with
  | [] => O
  | x :: l' => S (size x + size_items l')
  end.

Fixpoint size_members (l : list (string * json)) : nat :=
  match l with
  | [] => O
  | (_, x) :: l' => S (size x + size_members l')
  end.

(** The text of the items of a list, closing bracket included. *)
Fixpoint dumps_items (l : list json) : string :=
  match l with
  | [] => "]"
  | x :: l' =>
      dumps x ++ match l' with
                 | [] => "]"
                 | _ :: _ => ", " ++ dumps_items l'
                 end
  end.

Fixpoint dumps_members (l : list (string * json)) : string :=
  match l with
  | [] => "}"
  | (k, x) :: l' =>
      quote k ++ ": " ++ dumps x
      ++ match l' with
         | [] => "}"
         | _ :: _ => ", " ++ dumps_members l'
         end
  end.

(** The property proved of every value: it is read back, with enough
    fuel, in front of any text that does not continue a number. *)
Definition reads_back (v : json) : Prop :=
  forall (fuel : nat) (rest : string),
    (size v <= fuel)%nat -> delimited rest = true ->
    parse_value fuel (dumps v ++ rest) = Some (v, rest).

End RefJson.

(** ** Scenarios

    Concrete stores on which the statements below are evaluated. *)

Module Scenario.

Definition now : datetime := date 2024 1 20.

(** A tradeline with a limit of 10000 and one active allocation. *)
Definition tradeline : Tradeline.t :=
  Tradeline.mk 1 10000%float 10000%float (Some 12%float)
               (Some "Bank") (Some "Credit Card").

Definition allocation : AIAgentAllocation.t :=
  AIAgentAllocation.mk 7 3 1 (Some (date 2023 12 1)) 5000%float (Some true).

Definition purchase (id : Z) (amount : float) : Transaction.t :=
  Transaction.mk id 3 7 amount (Some (date 2024 1 10)) (Some "completed") None.

(** One completed transaction of 2500, no repayment yet. *)
Definition one_purchase : DB :=
  mkDB [tradeline] [allocation] [purchase 1 2500%float] [] [].

(** The same store with a repayment due on 2024-01-01 and paid on
    2024-01-15. *)
Definition paid_late : Repayment.t :=
  Repayment.mk 1 3 7 2500%float (Some (date 2024 1 1)) (Some (date 2024 1 15))
               (Some "late").

Definition with_late_repayment : DB :=
  mkDB [tradeline] [allocation] [purchase 1 2500%float] [paid_late] [].

(** A repayment of 250 due on 2024-01-01 that [process_repayment] marked
    'paid' on 2024-01-15, and the store with ten of them. *)
Definition processed_late (id : Z) : Repayment.t :=
  Repayment.mk id 3 7 250%float (Some (date 2024 1 1)) (Some (date 2024 1 15))
               (Some "paid").

Definition ten_late : DB :=
  mkDB [tradeline] [allocation] [purchase 1 2500%float]
       (map processed_late [1; 2; 3; 4; 5; 6; 7; 8; 9; 10]) [].

(** A tradeline with a limit of 1000 whose only allocation has the same
    limit, and three purchases of 1000 each (each within the allocation's
    limit, which is all that the transaction route checks). *)
Definition small_tradeline : Tradeline.t :=
  Tradeline.mk 1 1000%float 1000%float (Some 12%float)
               (Some "Bank") (Some "Credit Card").

Definition small_allocation : AIAgentAllocation.t :=
  AIAgentAllocation.mk 7 3 1 (Some (date 2023 12 1)) 1000%float (Some true).

Definition scheduled (id : Z) : Repayment.t :=
  Repayment.mk id 3 7 1000%float (Some (date 2024 2 9)) None (Some "scheduled").

Definition over_limit : DB :=
  mkDB [small_tradeline] [small_allocation]
       [purchase 1 1000%float; purchase 2 1000%float; purchase 3 1000%float]
       [scheduled 1; scheduled 2; scheduled 3] [].

(** A tradeline whose limit is zero, with an active allocation and no
    transaction. *)
Definition zero_limit : DB :=
  mkDB [Tradeline.mk 1 0%float 0%float (Some 12%float) None None]
       [allocation] [] [] [].

(** A repayment that has not been paid. *)
Definition unpaid : Repayment.t :=
  Repayment.mk 2 3 7 100%float (Some (date 2024 2 9)) None (Some "scheduled").

Definition with_unpaid : DB :=
  mkDB [tradeline] [allocation] [purchase 1 100%float] [unpaid] [].

(** The agent of the allocation, before any score was recorded, and the
    same agent with a history text that is not JSON. *)
Definition agent : AIAgent.t :=
  AIAgent.mk 3 (Some (date 2023 11 1)) (Some 600) None None.

Definition agent_with_malformed_history : AIAgent.t :=
  AIAgent.mk 3 (Some (date 2023 11 1)) (Some 600) None (Some "not json").

(** A scorer to run the scenarios with: the default score of 600 minus 25
    for each late repayment, and no component. *)
Definition scorer (data : AgentData.t) : score_data :=
  mk_score_data
    (600 - 25 * len (filter AgentData.rep_is_late (AgentData.repayments data)))
    (JDict []).

(** The agent after scores of 600 and 650 were recorded. *)
Definition agent_with_two_scores : AIAgent.t :=
  AIAgent.mk 3 (Some (date 2023 11 1)) (Some 650) (Some (date 2024 1 19))
    (Some (RefJson.dumps
             (JList [AIAgent.history_entry (date 2024 1 18)
                       (mk_score_data 600 (JDict []));
                     AIAgent.history_entry (date 2024 1 19)
                       (mk_score_data 650 (JDict []))]))).

End Scenario.
(** ** More of [models.py]: the other methods of the models *)

(** Truth value of a float: zero of either sign is false, a NaN is true. *)
Definition float_truthy (x : float) : bool := negb (PrimFloat.eqb x 0%float).

(** Truth value of a nullable float or Boolean column. *)
Definition opt_float_truthy (o : option float) : bool :=
  match o with
  | Some x => float_truthy x
  | None => false
  end.

Definition opt_bool_truthy (o : option bool) : bool :=
  match o with
  | Some b => b
  | None => false
  end.

(** [float(n)] for an [int] of magnitude below 2^63. *)
Definition float_of_Z (n : Z) : float :=
  match n with
  | Z0 => 0%float
  | Zpos _ => float_of_int n
  | Zneg p => PrimFloat.opp (float_of_int (Zpos p))
  end.

(** [timedelta(hours=h)] *)
Definition hours (h : Z) : timedelta := h * 3600000000.

(** [DefiRepayment.update_status] (models.py, 519-529).  The method reads
    the clock through [is_late] and [days_overdue]; [now] is that reading. *)
Module DefiRepaymentStatus.

Definition set_status (status : string) (self : DefiRepayment.t)
  : DefiRepayment.t :=
  DefiRepayment.mk (DefiRepayment.id self) (DefiRepayment.loan_id self)
    (DefiRepayment.payment_number self) (DefiRepayment.amount self)
    (DefiRepayment.due_date self) (DefiRepayment.payment_date self)
    (Some status).

(** Update the status based on payment state. *)
Definition update_status (now : datetime) (self : DefiRepayment.t)
  : DefiRepayment.t :=
  match DefiRepayment.payment_date self with
  | Some _ => set_status "paid" self
  | None =>
      if DefiRepayment.is_late now self then
        if 30 <? DefiRepayment.days_overdue now self
        then set_status "missed" self
        else set_status "late" self
      else set_status "scheduled" self
  end.

End DefiRepaymentStatus.

(** The update of [process_repayment] (app.py, 2730-2738): a repayment that
    is not in scheduled status is left alone ([None] here); a scheduled one
    gets [status = 'paid'] and [payment_date = datetime.utcnow()]. *)
Definition process_repayment (now : datetime) (repayment : Repayment.t)
  : option Repayment.t :=
  if negb (str_is (Repayment.status repayment) "scheduled") then None
  else Some (Repayment.mk (Repayment.id repayment)
               (Repayment.agent_id repayment)
               (Repayment.tradeline_allocation_id repayment)
               (Repayment.amount repayment) (Repayment.due_date repayment)
               (Some now) (Some "paid")).

Module User.

(** The columns the reset-token methods use. *)
Record t : Type := mk {
  id : Z;
  reset_password_token : option string;
  reset_password_expires : option datetime
}.

(** Generate a secure token for password reset; [token] is what
    [secrets.token_urlsafe(32)] returned. *)
Definition generate_reset_token (now : datetime) (token : string) (self : t)
  : string * t :=
  (token, mk (id self) (Some token) (Some (now + hours 24))).

(** Verify if the reset token is valid.  Comparing a missing expiry with a
    datetime is a [TypeError]. *)
Definition verify_reset_token (now : datetime) (self : t) (token : string)
  : result bool :=
  if str_is (reset_password_token self) token then
    match reset_password_expires self with
    | Some expires => Ok (now <? expires)
    | None => Raise TypeError
    end
  else Ok false.

(** Clear the reset token after use. *)
Definition clear_reset_token (self : t) : t := mk (id self) None None.

End User.

Module PromoCode.

Record t : Type := mk {
  id : Z;
  code : string;
  discount_percentage : Z;
  is_active : option bool;
  valid_from : option datetime;
  valid_until : option datetime;
  max_uses : option Z;
  current_uses : Z
}.

(** Check if the promo code is valid and can be used. *)
Definition is_valid (now : datetime) (self : t) : bool :=
  if negb (opt_bool_truthy (is_active self)) then false
  else if match valid_until self with
          | Some u => u <? now
          | None => false
          end then false
  else if match max_uses self with
          | Some m => m <=? current_uses self
          | None => false
          end then false
  else true.

(** Apply the discount to the original price. *)
Definition apply_discount (now : datetime) (self : t) (original_price : float)
  : float :=
  if negb (is_valid now self) then original_price
  else
    let discount_amount :=
      (original_price * float_of_Z (discount_percentage self) / 100)%float in
    (original_price - discount_amount)%float.

(** Increment the usage count of this promo code. *)
Definition increment_usage (self : t) : t :=
  mk (id self) (code self) (discount_percentage self) (is_active self)
     (valid_from self) (valid_until self) (max_uses self)
     (current_uses self + 1).

End PromoCode.

Module TradelinePurchase.

(** The columns the discount methods read. *)
Record t : Type := mk {
  id : Z;
  tradeline_id : Z;
  purchaser_id : Z;
  price_paid : option float;
  original_price : option float;
  promo_code_id : option Z
}.

(** Calculate the discount amount applied to this purchase. *)
Definition get_discount_amount (self : t) : float :=
  match original_price self, price_paid self with
  | Some original, Some paid =>
      if float_truthy original && float_truthy paid
         && PrimFloat.ltb paid original
      then (original - paid)%float
      else 0%float
  | _, _ => 0%float
  end.

Section Round.

(** Python's [round(x, ndigits)]. *)
Variable round : float -> Z -> float.

(** Calculate the discount percentage applied to this purchase. *)
Definition get_discount_percentage (self : t) : result float :=
  match original_price self, price_paid self with
  | Some original, Some paid =>
      if float_truthy original && float_truthy paid
         && PrimFloat.ltb 0%float original
      then
        let discount := get_discount_amount self in
        q <- truediv discount original ;;
        Ok (round (q * 100)%float 1)
      else Ok 0%float
  | _, _ => Ok 0%float
  end.

End Round.

End TradelinePurchase.

Module DefiLoan.

Record t : Type := mk {
  id : Z;
  agent_id : Z;
  amount : float;
  total_repayment : float;
  status : option string;
  has_collateral : option bool;
  collateral_amount : option float;
  collateral_liquidated : option bool;
  liquidation_date : option datetime
}.

(** [self.repayments.filter_by(status=status).all()], on the table of
    [DefiRepayment] rows. *)
Definition repayments_with (status : string) (table : list DefiRepayment.t)
  (self : t) : list DefiRepayment.t :=
  filter (fun r => (DefiRepayment.loan_id r =? id self)
                   && str_is (DefiRepayment.status r) status)
         table.

(** Calculate the current outstanding balance. *)
Definition calculate_current_balance (table : list DefiRepayment.t) (self : t)
  : float :=
  let paid := Py.sum (map DefiRepayment.amount (repayments_with "paid" table self)) in
  (total_repayment self - paid)%float.

(** [query.order_by(DefiRepayment.due_date).first()]: a row of least due
    date, the earliest in the table among equals. *)
Fixpoint first_by_due_date (l : list DefiRepayment.t) : option DefiRepayment.t :=
  match l with
  | [] => None
  | r :: l' =>
      match first_by_due_date l' with
      | Some r' =>
          if DefiRepayment.due_date r' <? DefiRepayment.due_date r
          then Some r' else Some r
      | None => Some r
      end
  end.

(** Get the next scheduled payment. *)
Definition next_payment (table : list DefiRepayment.t) (self : t)
  : option DefiRepayment.t :=
  first_by_due_date (repayments_with "scheduled" table self).

(** Check if collateral is sufficient based on current outstanding balance.
    Comparing a missing collateral amount with a float is a [TypeError]. *)
Definition is_collateral_sufficient (table : list DefiRepayment.t) (self : t)
  : result bool :=
  if negb (opt_bool_truthy (has_collateral self))
     || opt_bool_truthy (collateral_liquidated self)
  then Ok false
  else
    let current_balance := calculate_current_balance table self in
    match collateral_amount self with
    | Some c => Ok (PrimFloat.leb current_balance c)
    | None => Raise TypeError
    end.

(** Process collateral liquidation for defaulted loans: the flag returned,
    the loan and the table as the call leaves them. *)
Definition liquidate_collateral (now : datetime)
  (table : list DefiRepayment.t) (self : t)
  : bool * t * list DefiRepayment.t :=
  if negb (opt_bool_truthy (has_collateral self))
     || opt_bool_truthy (collateral_liquidated self)
  then (false, self, table)
  else
    (true,
     mk (id self) (agent_id self) (amount self) (total_repayment self)
        (Some "defaulted") (has_collateral self) (collateral_amount self)
        (Some true) (Some now),
     map (fun r =>
            if (DefiRepayment.loan_id r =? id self)
               && str_is (DefiRepayment.status r) "scheduled"
            then DefiRepaymentStatus.set_status "missed" r
            else r)
         table).

Section Round.

Variable round : float -> Z -> float.

(** Calculate the payment progress as a percentage. *)
Definition payment_progress (table : list DefiRepayment.t) (self : t)
  : result float :=
  let paid := Py.sum (map DefiRepayment.amount (repayments_with "paid" table self)) in
  if (0 <? total_repayment self)%float then
    q <- truediv paid (total_repayment self) ;;
    Ok (round (q * 100)%float 1)
  else Ok 0%float.

(** Calculate the collateral-to-loan ratio as a percentage. *)
Definition collateral_to_loan_ratio (self : t) : result float :=
  if negb (opt_bool_truthy (has_collateral self))
     || negb (opt_float_truthy (collateral_amount self))
     || (amount self <=? 0)%float
  then Ok 0%float
  else
    match collateral_amount self with
    | Some c =>
        q <- truediv c (amount self) ;;
        Ok (round (q * 100)%float 1)
    | None => Raise TypeError
    end.

End Round.

End DefiLoan.

(** ** [add_tradeline_performance.py]: the initial performance records *)

Module AddTradelinePerformance.

(** The script's own class [TradelinePerformance] (lines 17-44).  It is
    declared on the private [Base = declarative_base()] of line 15, not on
    [db.Model].  The constructor call of lines 115-130 passes neither [id]
    nor [record_date]: both stay unset on the object until a flush writes
    it. *)
Record TradelinePerformance : Type := mkTradelinePerformance {
  id : option Z;
  tradeline_id : Z;
  record_date : option datetime;
  current_balance : float;
  available_credit : float;
  utilization_rate : float;
  transaction_count : Z;
  transaction_volume : float;
  avg_transaction_amount : float;
  total_repayments : float;
  repayments_on_time : Z;
  repayments_late : Z;
  payment_ratio : float;
  risk_score : float;
  days_delinquent : Z;
  interest_accrued : float
}.

(** The session flushes what [db.session.add] has left pending: before each
    query (autoflush, which [db = SQLAlchemy()] leaves on) and on commit.
    With nothing pending a flush does nothing.  A pending record of the
    script's class cannot be written: the metadata of the private base holds
    the table of this one class only, so that the foreign key of line 22,
    [ForeignKey('tradeline.id')], has no table to refer to, and SQLAlchemy
    raises [NoReferencedTableError] when it orders the tables of the
    flush. *)
Definition flush (s : DB) (pending : list TradelinePerformance) : result DB :=
  if truthy pending then Raise NoReferencedTableError else Ok s.

(** [[t for t in transactions if t.transaction_date >= (datetime.utcnow()
    - timedelta(days=30))]], evaluated in Python: comparing a missing date
    is a [TypeError]. *)
Fixpoint recent_transactions (now : datetime) (l : list Transaction.t)
  : result (list Transaction.t) :=
  match l with
  | [] => Ok []
  | tx :: l' =>
      match Transaction.transaction_date tx with
      | None => Raise TypeError
      | Some d =>
          rest <- recent_transactions now l' ;;
          Ok (if now - days 30 <=? d then tx :: rest else rest)
      end
  end.

(** [Repayment.query.filter(Repayment.tradeline_allocation_id.in_(
    allocation_ids)).all()]: the repayments of every status. *)
Definition repayments_of (s : DB) (allocation_ids : list Z)
  : list Repayment.t :=
  filter (fun r => in_ (Repayment.tradeline_allocation_id r) allocation_ids)
         (repayments s).

(** The body of the loop of [create_performance_records] for one tradeline
    (lines 65-130): [None] when the loop continues without a record,
    otherwise the object of lines 115-130.  [now] is the reading of the
    clock for the 30-day window. *)
Definition performance_record (s : DB) (now : datetime)
  (tradeline : Tradeline.t) : result (option TradelinePerformance) :=
  let allocations :=
    TradelinePerformance.active_allocations s (Tradeline.id tradeline) in
  if negb (truthy allocations) then Ok None else
  let allocation_ids := map AIAgentAllocation.id allocations in
  let transactions :=
    TradelinePerformance.completed_transactions s allocation_ids in
  if negb (truthy transactions) then Ok None else
  let total_balance := Py.sum (map Transaction.amount transactions) in
  let available_credit :=
    (Tradeline.credit_limit tradeline - total_balance)%float in
  utilization_rate <-
    (if (0 <? Tradeline.credit_limit tradeline)%float
     then truediv total_balance (Tradeline.credit_limit tradeline)
     else Ok 0%float) ;;
  recent <- recent_transactions now transactions ;;
  let transaction_count := len recent in
  let transaction_volume := Py.sum (map Transaction.amount recent) in
  avg_transaction_amount <-
    (if 0 <? transaction_count
     then truediv_int transaction_volume transaction_count
     else Ok 0%float) ;;
  let repayments := repayments_of s allocation_ids in
  let total_repayments := Py.sum (map Repayment.amount repayments) in
  let repayments_on_time :=
    len (filter TradelinePerformance.on_time repayments) in
  let repayments_late := len (filter TradelinePerformance.late repayments) in
  payment_ratio <-
    (if (0 <? total_balance)%float
     then truediv total_repayments total_balance
     else Ok 1%float) ;;
  let late_repayments := filter TradelinePerformance.late repayments in
  total_days_late <-
    (if truthy late_repayments
     then ds <- comprehension Repayment.days_overdue late_repayments ;;
          Ok (sum_int ds)
     else Ok 0) ;;
  let risk_utilization := (utilization_rate * 30)%float in
  let risk_late_payments := Py.min 40 (repayments_late * 10) in
  let risk_payment_ratio := Py.max 0%float (30 - payment_ratio * 30)%float in
  let risk_score :=
    (risk_utilization + float_of_int risk_late_payments
     + risk_payment_ratio)%float in
  interest_accrued <-
    (match Tradeline.interest_rate tradeline with
     | None => Raise TypeError
     | Some interest_rate =>
         r <- truediv interest_rate 100%float ;;
         d <- truediv (total_balance * r)%float 365%float ;;
         Ok (d * 30)%float
     end) ;;
  Ok (Some (mkTradelinePerformance None (Tradeline.id tradeline) None
              total_balance available_credit utilization_rate
              transaction_count transaction_volume avg_transaction_amount
              total_repayments repayments_on_time repayments_late
              payment_ratio risk_score total_days_late interest_accrued)).

(** The loop over [Tradeline.query.all()] (lines 63-133), with the records
    that [db.session.add] has left pending so far: the count and the pending
    records at the end of the loop.  The first query of an iteration (line
    65) flushes the session before it reads; an exception, of the flush or
    of the body, leaves the loop and the function. *)
Fixpoint create_loop (s : DB) (now : datetime) (tradelines : list Tradeline.t)
  (pending : list TradelinePerformance) (records_created : Z)
  : result (Z * list TradelinePerformance) :=
  match tradelines with
  | [] => Ok (records_created, pending)
  | tradeline :: rest =>
      s <- flush s pending ;;
      r <- performance_record s now tradeline ;;
      match r with
      | None => create_loop s now rest pending records_created
      | Some performance =>
          create_loop s now rest (pending ++ [performance])%list
                      (records_created + 1)
      end
  end.

(** Create initial performance records for tradelines with activity: the
    returned count and the store after the call.  The commit of line 136
    flushes the pending records; when it raises, the handler of lines
    139-142 rolls the session back, which drops them, and returns 0. *)
Definition create_performance_records (s : DB) (now : datetime)
  : result (Z * DB) :=
  r <- create_loop s now (tradelines s) [] 0 ;;
  let (records_created, pending) := r in
  match flush s pending with
  | Ok s' => Ok (records_created, s')
  | Raise _ => Ok (0, s)
  end.

End AddTradelinePerformance.

(** ** Vocabulary of the further statements *)

(** Every column of a performance record but its primary key. *)
Definition snapshot_metrics (p : TradelinePerformance.t) :=
  (TradelinePerformance.tradeline_id p, TradelinePerformance.record_date p,
   (TradelinePerformance.current_balance p,
    TradelinePerformance.available_credit p,
    TradelinePerformance.utilization_rate p),
   (TradelinePerformance.transaction_count p,
    TradelinePerformance.transaction_volume p,
    TradelinePerformance.avg_transaction_amount p),
   (TradelinePerformance.total_repayments p,
    TradelinePerformance.repayments_on_time p,
    TradelinePerformance.repayments_late p,
    TradelinePerformance.payment_ratio p),
   (TradelinePerformance.risk_score p,
    TradelinePerformance.days_delinquent p,
    TradelinePerformance.interest_accrued p)).

(** The store of [Scenario.one_purchase] with two more completed
    transactions: one of 2023-12-01, more than 30 days before
    [Scenario.now], and one without a date. *)
Definition old_and_undated_purchases : DB :=
  mkDB [Scenario.tradeline] [Scenario.allocation]
       [Scenario.purchase 1 2500%float;
        Transaction.mk 2 3 7 400%float (Some (date 2023 12 1))
                       (Some "completed") None;
        Transaction.mk 3 3 7 100%float None (Some "completed") None]
       [] [].

(** [Scenario.one_purchase] with a repayment of 500 due on 2024-02-01 and
    paid on 2024-01-15, before it was due. *)
Definition paid_on_time : Repayment.t :=
  Repayment.mk 1 3 7 500%float (Some (date 2024 2 1)) (Some (date 2024 1 15))
               (Some "paid").

Definition with_paid_on_time : DB :=
  mkDB [Scenario.tradeline] [Scenario.allocation]
       [Scenario.purchase 1 2500%float] [paid_on_time] [].

(** Two tradelines, each with an active allocation and a completed
    transaction. *)
Definition second_tradeline : Tradeline.t :=
  Tradeline.mk 2 5000%float 5000%float (Some 9%float)
               (Some "Bank") (Some "Credit Card").

Definition two_active_tradelines : DB :=
  mkDB [Scenario.tradeline; second_tradeline]
       [Scenario.allocation;
        AIAgentAllocation.mk 8 3 2 (Some (date 2023 12 1)) 2000%float
                             (Some true)]
       [Scenario.purchase 1 2500%float;
        Transaction.mk 2 3 8 300%float (Some (date 2024 1 12))
                       (Some "completed") None]
       [] [].

(** * Proofs *)

(** ** Comparisons of a float with zero, and the guarded divisions *)

Lemma float_pos_nonzero (x : float) :
  (0 <? x)%float = true -> (x =? 0)%float = false.
Proof.
  rewrite ltb_spec, eqb_spec. unfold SFltb, SFeqb.
  change (Prim2SF 0) with (S754_zero false).
  destruct (Prim2SF x) as [sg | sg | | sg m e]; simpl; try discriminate;
    destruct sg; intros; try discriminate; reflexivity.
Qed.

Lemma float_nonpos_not_pos (x : float) :
  (x <=? 0)%float = true -> (0 <? x)%float = false.
Proof.
  rewrite ltb_spec, leb_spec. unfold SFltb, SFleb.
  change (Prim2SF 0) with (S754_zero false).
  destruct (Prim2SF x) as [sg | sg | | sg m e]; simpl; try reflexivity;
    destruct sg; intros; try discriminate; reflexivity.
Qed.

Import TradelinePerformance.

Lemma guarded_truediv (x y : float) (d : float) :
  (if (0 <? y)%float then truediv x y else Ok d)
  = Ok (if (0 <? y)%float then (x / y)%float else d).
Proof.
  destruct (0 <? y)%float eqn:Hy; [| reflexivity].
  unfold truediv. now rewrite (float_pos_nonzero _ Hy).
Qed.

Lemma guarded_truediv_int (x : float) (n : Z) (d : float) :
  (if 0 <? n then truediv_int x n else Ok d)
  = Ok (if 0 <? n then (x / float_of_int n)%float else d).
Proof.
  destruct (0 <? n) eqn:Hn; [| reflexivity].
  unfold truediv_int. apply Z.ltb_lt in Hn.
  destruct (n =? 0) eqn:E; [apply Z.eqb_eq in E; lia | reflexivity].
Qed.

Lemma comprehension_days_overdue (l : list Repayment.t) :
  truthy l = true -> comprehension Repayment.days_overdue l = Raise AttributeError.
Proof. destruct l; [discriminate | reflexivity]. Qed.

(** The interest line divides by the constants 100 and 365 only. *)
Lemma interest_accrued_ok (total_balance interest_rate : float) :
  (r <- truediv interest_rate 100%float ;;
   d <- truediv (total_balance * r)%float 365%float ;;
   Ok (d * 30)%float)
  = Ok (total_balance * (interest_rate / 100) / 365 * 30)%float.
Proof. reflexivity. Qed.

Ltac simpl_guards :=
  rewrite !guarded_truediv, guarded_truediv_int; cbn [bind].

(** ** The outcomes of [record_tradeline_performance] *)

Section Snapshot.

Variables (s : DB) (now : datetime) (tid : Z).

Abbreviation ids := (map AIAgentAllocation.id (active_allocations s tid)).

Lemma record_snapshot_inv (p : TradelinePerformance.t) (s' : DB) :
  record_tradeline_performance s now tid = Ok (Some p, s') ->
  exists tl ir,
    Tradeline_get s tid = Some tl
    /\ Tradeline.interest_rate tl = Some ir
    /\ truthy ids = true
    /\ filter late (settled_repayments s ids) = []
    /\ s' = add_performance p s
    /\ current_balance p
       = Py.sum (map Transaction.amount (completed_transactions s ids))
    /\ available_credit p
       = (Tradeline.credit_limit tl - current_balance p)%float
    /\ utilization_rate p
       = (if (0 <? Tradeline.credit_limit tl)%float
          then (current_balance p / Tradeline.credit_limit tl)%float
          else 0%float)
    /\ total_repayments p
       = Py.sum (map Repayment.amount (settled_repayments s ids))
    /\ repayments_late p = len (filter late (settled_repayments s ids))
    /\ payment_ratio p
       = (if (0 <? current_balance p)%float
          then (total_repayments p / current_balance p)%float
          else 1%float)
    /\ days_delinquent p = 0
    /\ risk_score p
       = (risk_utilization (utilization_rate p)
          + float_of_int (risk_late_payments (repayments_late p))
          + risk_payment_ratio (payment_ratio p))%float.
Proof.
  unfold record_tradeline_performance.
  destruct (Tradeline_get s tid) as [tl |] eqn:Hget; [| discriminate].
  destruct (truthy ids) eqn:Hids; [| discriminate]. cbn [negb].
  simpl_guards.
  destruct (filter late (settled_repayments s ids)) as [| r l] eqn:Hlate;
    [| discriminate].
  cbn [truthy bind].
  destruct (Tradeline.interest_rate tl) as [ir |] eqn:Hir; [| discriminate].
  rewrite interest_accrued_ok.
  intros H. injection H as <- <-.
  exists tl, ir. cbn. repeat split; solve [assumption | reflexivity].
Qed.

Lemma record_snapshot_exists (tl : Tradeline.t) (ir : float) :
  Tradeline_get s tid = Some tl ->
  Tradeline.interest_rate tl = Some ir ->
  truthy ids = true ->
  filter late (settled_repayments s ids) = [] ->
  exists p, record_tradeline_performance s now tid
            = Ok (Some p, add_performance p s).
Proof.
  intros Hget Hir Hids Hlate.
  unfold record_tradeline_performance.
  rewrite Hget, Hids, Hir, Hlate. cbn [negb truthy].
  simpl_guards.
  rewrite interest_accrued_ok.
  eexists. reflexivity.
Qed.

Lemma record_late_raises (tl : Tradeline.t) :
  Tradeline_get s tid = Some tl ->
  truthy ids = true ->
  truthy (filter late (settled_repayments s ids)) = true ->
  record_tradeline_performance s now tid = Raise AttributeError.
Proof.
  intros Hget Hids Hlate.
  unfold record_tradeline_performance.
  rewrite Hget, Hids. cbn [negb].
  simpl_guards.
  rewrite Hlate, (comprehension_days_overdue _ Hlate). reflexivity.
Qed.

Lemma record_outcomes :
  (exists r, record_tradeline_performance s now tid = Ok r)
  \/ record_tradeline_performance s now tid = Raise AttributeError
  \/ record_tradeline_performance s now tid = Raise TypeError.
Proof.
  unfold record_tradeline_performance.
  destruct (Tradeline_get s tid) as [tl |]; [| left; eexists; reflexivity].
  destruct (truthy ids); cbn [negb]; [| left; eexists; reflexivity].
  simpl_guards.
  destruct (truthy (filter late (settled_repayments s ids))) eqn:Hlate.
  - rewrite (comprehension_days_overdue _ Hlate). right; left; reflexivity.
  - cbn [bind].
    destruct (Tradeline.interest_rate tl) as [ir |]; [| right; right; reflexivity].
    rewrite interest_accrued_ok.
    left; eexists; reflexivity.
Qed.

End Snapshot.

(** ** The claims on [record_tradeline_performance] *)

(** Python's [min] on integers is the mathematical minimum. *)
Lemma py_min_spec (a b : Z) : Py.min a b = Z.min a b.
Proof. unfold Py.min. destruct (b <? a) eqn:E; lia. Qed.

Lemma is_late_true_iff (r : Repayment.t) :
  Repayment.is_late r = true
  <-> exists p d, Repayment.payment_date r = Some p
                  /\ Repayment.due_date r = Some d /\ d < p.
Proof.
  unfold Repayment.is_late. split.
  - destruct (Repayment.payment_date r) as [p |]; [| discriminate].
    destruct (Repayment.due_date r) as [d |]; [| discriminate].
    intros H. exists p, d. repeat split. now apply Z.ltb_lt.
  - intros (p & d & -> & -> & H). now apply Z.ltb_lt.
Qed.

(** The only [days_overdue] of [models.py] is [DefiRepayment]'s, which counts
    the days since the due date of an instalment that is not paid: on a paid
    one it is 0. *)
Lemma defi_days_overdue_paid (now : datetime) (r : DefiRepayment.t)
  (p : datetime) :
  DefiRepayment.payment_date r = Some p -> DefiRepayment.days_overdue now r = 0.
Proof.
  intros H. unfold DefiRepayment.days_overdue, DefiRepayment.is_late.
  now rewrite H.
Qed.

(** C1.  The repayment due on 2024-01-01 and paid on 2024-01-15 is late, and
    fourteen days lie between the two dates; but a Repayment has no
    [days_overdue], and [record_tradeline_performance] on a tradeline with
    this repayment raises AttributeError instead of summing days. *)
Theorem days_overdue_of_late_repayment_raises :
  Repayment.is_late Scenario.paid_late = true
  /\ td_days (date 2024 1 15 - date 2024 1 1) = 14
  /\ Repayment.days_overdue Scenario.paid_late = Raise AttributeError
  /\ record_tradeline_performance Scenario.with_late_repayment Scenario.now 1
     = Raise AttributeError.
Proof. repeat split; vm_compute; reflexivity. Qed.

(** The risk score of a snapshot that is returned is composed as lines
    625-631 write it.  (A call with a late repayment in scope raises, so
    that the late-payment component is 0 in every returned snapshot.) *)
Lemma risk_score_formula (s : DB) (now : datetime) (tid : Z)
  (p : TradelinePerformance.t) (s' : DB) :
  record_tradeline_performance s now tid = Ok (Some p, s') ->
  risk_score p
  = (utilization_rate p * 30
     + float_of_int (Z.min 40 (repayments_late p * 10))
     + Py.max 0 (30 - payment_ratio p * 30))%float
  /\ forall late_count, 4 <= late_count -> risk_late_payments late_count = 40.
Proof.
  intros H. split.
  - destruct (record_snapshot_inv _ _ _ _ _ H)
      as (tl & ir & _ & _ & _ & _ & _ & _ & _ & _ & _ & _ & _ & _ & Hrisk).
    rewrite Hrisk. unfold risk_utilization, risk_late_payments, risk_payment_ratio.
    now rewrite py_min_spec.
  - intros n Hn. unfold risk_late_payments. rewrite py_min_spec. lia.
Qed.

Lemma risk_score_formula_witness :
  exists p s',
    record_tradeline_performance Scenario.one_purchase Scenario.now 1
    = Ok (Some p, s')
    /\ risk_score p = 37.5%float
    /\ risk_late_payments 10 = 40.
Proof.
  destruct (record_snapshot_exists Scenario.one_purchase Scenario.now 1
              Scenario.tradeline 12%float eq_refl eq_refl eq_refl eq_refl)
    as [p Hp].
  exists p, (add_performance p Scenario.one_purchase).
  destruct (risk_score_formula _ _ _ _ _ Hp) as [Hrisk Hcap].
  split; [exact Hp |]. split; [| apply Hcap; lia].
  rewrite Hrisk. vm_compute in Hp. injection Hp as <-. reflexivity.
Defined.

(** C2.  The late-payment component min(40, repayments_late*10) of line 628
    is 40 from four late repayments on, but no snapshot ever stores it: as
    soon as one 'paid' or 'late' repayment in scope is late, line 621 calls
    [days_overdue] on a Repayment, which has none, and
    [record_tradeline_performance] raises AttributeError before the risk
    score is computed. *)
Theorem late_payment_cap_is_never_stored (s : DB) (now : datetime) (tid : Z)
  (tl : Tradeline.t) (late_count : Z) :
  Tradeline_get s tid = Some tl ->
  active_allocations s tid <> [] ->
  late_count
  = len (filter late
           (settled_repayments s
              (map AIAgentAllocation.id (active_allocations s tid)))) ->
  0 < late_count ->
  record_tradeline_performance s now tid = Raise AttributeError
  /\ (4 <= late_count -> risk_late_payments late_count = 40).
Proof.
  intros Hget Hact -> Hpos. split.
  - apply (record_late_raises s now tid tl Hget).
    + destruct (active_allocations s tid); [contradiction | reflexivity].
    + unfold len in Hpos.
      destruct (filter late _); [cbn in Hpos; lia | reflexivity].
  - intros H4. unfold risk_late_payments. rewrite py_min_spec. lia.
Qed.

Lemma late_payment_cap_is_never_stored_witness :
  len (filter late (settled_repayments Scenario.ten_late [7])) = 10
  /\ record_tradeline_performance Scenario.ten_late Scenario.now 1
     = Raise AttributeError
  /\ risk_late_payments 10 = 40.
Proof.
  destruct (late_payment_cap_is_never_stored Scenario.ten_late Scenario.now 1
              Scenario.tradeline 10 eq_refl) as [Hraise Hcap].
  - vm_compute. discriminate.
  - reflexivity.
  - lia.
  - split; [reflexivity |]. split; [exact Hraise | apply Hcap; lia].
Defined.

(** C3.  Three purchases of 1000 on a tradeline whose limit is 1000 give a
    utilization of 3 and no repayment counted: the stored risk score is
    90 + 0 + 30 = 120, outside [0, 100]. *)
Theorem risk_score_above_100 :
  exists p s',
    record_tradeline_performance Scenario.over_limit Scenario.now 1
    = Ok (Some p, s')
    /\ utilization_rate p = 3%float
    /\ risk_score p = 120%float
    /\ (risk_score p <=? 100)%float = false.
Proof. eexists _, _. vm_compute. repeat split; reflexivity. Qed.

(** C4.  [record_tradeline_performance] never raises ZeroDivisionError; on a
    tradeline whose credit limit is at most 0 the snapshot's utilization rate
    is 0, and a snapshot whose balance is at most 0 has payment ratio 1. *)
Theorem no_zero_division (s : DB) (now : datetime) (tid : Z) :
  record_tradeline_performance s now tid <> Raise ZeroDivisionError
  /\ (forall tl p s',
        Tradeline_get s tid = Some tl ->
        (Tradeline.credit_limit tl <=? 0)%float = true ->
        record_tradeline_performance s now tid = Ok (Some p, s') ->
        utilization_rate p = 0%float)
  /\ (forall p s',
        record_tradeline_performance s now tid = Ok (Some p, s') ->
        (current_balance p <=? 0)%float = true ->
        payment_ratio p = 1%float).
Proof.
  split; [| split].
  - destruct (record_outcomes s now tid) as [[r ->] | [-> | ->]]; discriminate.
  - intros tl p s' Hget Hcl H.
    destruct (record_snapshot_inv _ _ _ _ _ H)
      as (tl' & ir & Hget' & _ & _ & _ & _ & _ & _ & Hu & _).
    rewrite Hget in Hget'. injection Hget' as <-.
    now rewrite Hu, (float_nonpos_not_pos _ Hcl).
  - intros p s' H Hb.
    destruct (record_snapshot_inv _ _ _ _ _ H)
      as (tl & ir & _ & _ & _ & _ & _ & _ & _ & _ & _ & _ & Hr & _).
    now rewrite Hr, (float_nonpos_not_pos _ Hb).
Qed.

Lemma no_zero_division_witness :
  exists p s',
    record_tradeline_performance Scenario.zero_limit Scenario.now 1
    = Ok (Some p, s')
    /\ utilization_rate p = 0%float /\ payment_ratio p = 1%float.
Proof.
  destruct (record_snapshot_exists Scenario.zero_limit Scenario.now 1
              _ 12%float eq_refl eq_refl eq_refl eq_refl) as [p Hp].
  exists p, (add_performance p Scenario.zero_limit).
  destruct (no_zero_division Scenario.zero_limit Scenario.now 1) as (_ & Hu & Hr).
  split; [exact Hp |]. split.
  - apply (Hu _ p _ eq_refl eq_refl Hp).
  - apply (Hr p _ Hp). vm_compute in Hp. injection Hp as <-. reflexivity.
Defined.

Lemma in_active_allocation_ids (s : DB) (tid : Z) (tx : Transaction.t) :
  in_ (Transaction.tradeline_allocation_id tx)
      (map AIAgentAllocation.id (active_allocations s tid))
  = on_active_allocation s tid tx.
Proof.
  unfold on_active_allocation, active_allocations, in_.
  induction (allocations s) as [| a l IH]; [reflexivity |].
  cbn [filter existsb].
  destruct (AIAgentAllocation.tradeline_id a =? tid);
    destruct (AIAgentAllocation.is_active a) as [[|] |];
    cbn [andb map existsb]; rewrite IH;
    rewrite ?andb_true_r, ?andb_false_r;
    try rewrite (Z.eqb_sym (AIAgentAllocation.id a));
    reflexivity.
Qed.

(** C5.  On a tradeline with a positive credit limit and an active
    allocation, the snapshot's balance is the sum of the completed
    transactions on the tradeline's active allocations, its available credit
    the limit minus the balance, and its utilization rate the balance divided
    by the limit. *)
Theorem utilization_metrics (s : DB) (now : datetime) (tid : Z)
  (tl : Tradeline.t) (p : TradelinePerformance.t) (s' : DB) :
  Tradeline_get s tid = Some tl ->
  (0 <? Tradeline.credit_limit tl)%float = true ->
  active_allocations s tid <> [] ->
  record_tradeline_performance s now tid = Ok (Some p, s') ->
  current_balance p
  = Py.sum (map Transaction.amount
              (filter (fun tx => on_active_allocation s tid tx
                                 && str_is (Transaction.status tx) "completed")
                      (transactions s)))
  /\ available_credit p = (Tradeline.credit_limit tl - current_balance p)%float
  /\ utilization_rate p = (current_balance p / Tradeline.credit_limit tl)%float.
Proof.
  intros Hget Hcl _ H.
  destruct (record_snapshot_inv _ _ _ _ _ H)
    as (tl' & ir & Hget' & _ & _ & _ & _ & Hb & Ha & Hu & _).
  rewrite Hget in Hget'. injection Hget' as <-.
  rewrite Hcl in Hu. repeat split; try assumption.
  rewrite Hb. unfold completed_transactions. f_equal. f_equal.
  apply filter_ext. intros tx. now rewrite in_active_allocation_ids.
Qed.

Lemma utilization_metrics_witness :
  exists p s',
    record_tradeline_performance Scenario.one_purchase Scenario.now 1
    = Ok (Some p, s')
    /\ current_balance p = 2500%float
    /\ available_credit p = 7500%float
    /\ utilization_rate p = 0.25%float.
Proof.
  destruct (record_snapshot_exists Scenario.one_purchase Scenario.now 1
              Scenario.tradeline 12%float eq_refl eq_refl eq_refl eq_refl)
    as [p Hp].
  exists p, (add_performance p Scenario.one_purchase).
  assert (Hne : active_allocations Scenario.one_purchase 1 <> [])
    by (vm_compute; discriminate).
  destruct (utilization_metrics Scenario.one_purchase Scenario.now 1
              Scenario.tradeline _ _ eq_refl eq_refl Hne Hp) as (Hb & Ha & Hu).
  split; [exact Hp |].
  rewrite Hu, Ha, Hb. repeat split; vm_compute; reflexivity.
Defined.

(** C6.  [record_tradeline_performance] returns [None] exactly when the id
    names no tradeline or the tradeline has no active allocation, and then
    the store is left as it was. *)
Theorem record_none_iff (s : DB) (now : datetime) (tid : Z) :
  ((exists s', record_tradeline_performance s now tid = Ok (None, s'))
   <-> Tradeline_get s tid = None \/ active_allocations s tid = [])
  /\ (forall s', record_tradeline_performance s now tid = Ok (None, s') -> s' = s).
Proof.
  assert (Hcases :
    (Tradeline_get s tid = None \/ active_allocations s tid = []) ->
    record_tradeline_performance s now tid = Ok (None, s)).
  { unfold record_tradeline_performance. intros [-> | Hnone]; [reflexivity |].
    rewrite Hnone. now destruct (Tradeline_get s tid). }
  assert (Hinv : forall s',
    record_tradeline_performance s now tid = Ok (None, s') ->
    (Tradeline_get s tid = None \/ active_allocations s tid = []) /\ s' = s).
  { intros s' H.
    destruct (Tradeline_get s tid) as [tl |] eqn:Hget.
    - destruct (active_allocations s tid) as [| a l] eqn:Hact.
      + rewrite Hcases in H by now right. injection H as <-. now split; [right |].
      + exfalso.
        destruct (Tradeline.interest_rate tl) as [ir |] eqn:Hir.
        * destruct (filter late (settled_repayments s
                     (map AIAgentAllocation.id (active_allocations s tid))))
            as [| r rs] eqn:Hlate.
          -- destruct (record_snapshot_exists s now tid tl ir Hget Hir) as [p Hp];
               [now rewrite Hact | exact Hlate |].
             rewrite Hp in H. discriminate.
          -- rewrite (record_late_raises s now tid tl Hget) in H;
               [discriminate | now rewrite Hact | now rewrite Hlate].
        * revert H. unfold record_tradeline_performance.
          rewrite Hget, Hact, Hir. cbn [map truthy negb].
          simpl_guards.
          destruct (truthy _); [| discriminate].
          destruct (comprehension _ _); discriminate.
    - rewrite Hcases in H by now left. injection H as <-. now split; [left |]. }
  split; [split |].
  - intros [s' H]. apply (Hinv s' H).
  - intros H. exists s. now apply Hcases.
  - intros s' H. apply (Hinv s' H).
Qed.

Lemma record_none_iff_witness :
  record_tradeline_performance Scenario.one_purchase Scenario.now 99
  = Ok (None, Scenario.one_purchase).
Proof.
  destruct (record_none_iff Scenario.one_purchase Scenario.now 99) as [[_ H] Hs].
  destruct (H (or_introl eq_refl)) as [s' Hs'].
  now rewrite Hs', (Hs s' Hs').
Defined.

(** ** The claims on the agent's score *)

(** What [update_credit_score] returns is the scorer's result on the agent
    data built from the store. *)
Lemma update_credit_score_scores_agent_data
  (json_loads : string -> result json) (json_dumps : json -> string)
  (scorer : AgentData.t -> score_data)
  (s : DB) (now : datetime) (self : AIAgent.t)
  (sd : score_data) (self' : AIAgent.t) :
  AIAgent.update_credit_score json_loads json_dumps scorer s now self
  = Ok (sd, self') ->
  sd = scorer (AIAgent.agent_data s self).
Proof.
  unfold AIAgent.update_credit_score.
  destruct (AIAgent.load_history _ _) as [history | e]; [| discriminate].
  cbn [bind].
  destruct (AIAgent.track_agent_score_history _ _ _ _) as [history' | e];
    [| discriminate].
  cbn [bind]. now intros [= <- _].
Qed.

(** C10.  A repayment with no payment date or no due date is not late, and
    the [is_late] flag that [update_credit_score] computes for it in the
    agent data it scores is [False] as well. *)
Theorem missing_date_is_not_late (r : Repayment.t) :
  Repayment.payment_date r = None \/ Repayment.due_date r = None ->
  Repayment.is_late r = false
  /\ forall (json_loads : string -> result json) (json_dumps : json -> string)
            (scorer : AgentData.t -> score_data)
            (s : DB) (now : datetime) (self : AIAgent.t),
       In r (AIAgent.repayments s self) ->
       (forall sd self',
           AIAgent.update_credit_score json_loads json_dumps scorer s now self
           = Ok (sd, self') ->
           sd = scorer (AIAgent.agent_data s self))
       /\ exists item,
            In item (AgentData.repayments (AIAgent.agent_data s self))
            /\ AgentData.rep_id item = Repayment.id r
            /\ AgentData.rep_payment_date item = Repayment.payment_date r
            /\ AgentData.rep_due_date item = Repayment.due_date r
            /\ AgentData.rep_is_late item = false.
Proof.
  intros Hmissing.
  assert (Hflag : Repayment.is_late r = false).
  { unfold Repayment.is_late.
    destruct Hmissing as [-> | ->]; [reflexivity |].
    now destruct (Repayment.payment_date r). }
  split; [exact Hflag |].
  intros json_loads json_dumps scorer s now self Hin. split.
  - intros sd self'. apply update_credit_score_scores_agent_data.
  - exists (AIAgent.repayment_item r).
    split; [apply in_map, Hin |]. repeat split. exact Hflag.
Qed.

Lemma missing_date_is_not_late_witness :
  Repayment.is_late Scenario.unpaid = false
  /\ In (AgentData.mk_repayment 2 100%float (Some (date 2024 2 9)) None false)
        (AgentData.repayments
           (AIAgent.agent_data Scenario.with_unpaid Scenario.agent)).
Proof.
  destruct (missing_date_is_not_late Scenario.unpaid (or_introl eq_refl))
    as [Hlate _].
  split; [exact Hlate | left; reflexivity].
Defined.

(** ** The reference codec reads back what it writes *)

Module RefJsonFacts.

Import RefJson.

Lemma append_assoc (a b c : string) : ((a ++ b) ++ c = a ++ (b ++ c))%string.
Proof. induction a as [| x a IH]; cbn; [reflexivity | now rewrite IH]. Qed.

Lemma append_nil_r (a : string) : (a ++ "")%string = a.
Proof. induction a as [| x a IH]; cbn; [reflexivity | now rewrite IH]. Qed.

Lemma length_append (a b : string) :
  String.length (a ++ b) = (String.length a + String.length b)%nat.
Proof. induction a as [| x a IH]; cbn; [reflexivity | now rewrite IH]. Qed.

Lemma span_num_app (tok rest : string) :
  all_num tok = true -> delimited rest = true ->
  span_num (tok ++ rest) = (tok, rest).
Proof.
  intros Htok Hrest. induction tok as [| c tok IH]; cbn [append span_num].
  - destruct rest as [| c r]; [reflexivity |]. cbn [delimited] in Hrest.
    cbn [span_num]. now destruct (is_num c).
  - cbn [all_num] in Htok. apply andb_true_iff in Htok as [-> Htok].
    now rewrite (IH Htok).
Qed.

Lemma all_num_uint (d : uint) : all_num (NilEmpty.string_of_uint d) = true.
Proof. induction d; cbn; auto. Qed.

Lemma all_num_print_int (n : Z) : all_num (print_int n) = true.
Proof.
  unfold print_int, NilZero.string_of_int, NilZero.string_of_uint.
  destruct (Z.to_int n) as [d | d]; destruct d;
    solve [reflexivity | apply all_num_uint
           | cbn [all_num]; apply andb_true_iff; split;
             [reflexivity | apply all_num_uint]].
Qed.

Lemma print_int_head (n : Z) :
  exists c t, print_int n = String c t /\ is_num c = true.
Proof.
  pose proof (all_num_print_int n) as H.
  destruct (print_int n) as [| c t] eqn:E.
  - exfalso. revert E. unfold print_int, NilZero.string_of_int,
      NilZero.string_of_uint.
    destruct (Z.to_int n) as [d | d]; destruct d; discriminate.
  - exists c, t. cbn [all_num] in H. apply andb_true_iff in H as [H _].
    now split.
Qed.

Lemma to_int_proper (n : Z) : Z.to_int n <> Pos Nil /\ Z.to_int n <> Neg Nil.
Proof.
  destruct n as [| p | p]; cbn; split; try discriminate;
    intros [= H]; now apply (DecimalPos.Unsigned.to_uint_nonnil p).
Qed.

Lemma parse_print_int (n : Z) (rest : string) :
  delimited rest = true ->
  parse_int (print_int n ++ rest) = Some (n, rest).
Proof.
  intros Hrest. unfold parse_int.
  rewrite (span_num_app _ _ (all_num_print_int n) Hrest).
  unfold print_int. destruct (to_int_proper n) as [H1 H2].
  now rewrite (NilZero.isi _ H1 H2), DecimalZ.of_to.
Qed.

Lemma is_num_char (c : ascii) :
  is_num c = true ->
  is_ws c = false /\ Ascii.eqb c "[" = false /\ Ascii.eqb c "{" = false
  /\ Ascii.eqb c dquote = false.
Proof.
  destruct c as [[] [] [] [] [] [] [] []]; cbn; intros H;
    try discriminate; repeat split.
Qed.

Lemma unquote_escape (s rest : string) :
  unquote (escape s ++ String dquote rest) = Some (s, rest).
Proof.
  induction s as [| c s IH]; cbn.
  - reflexivity.
  - destruct (Ascii.eqb c dquote) eqn:Eq; cbn.
    + rewrite Eq. cbn. now rewrite IH.
    + destruct (Ascii.eqb c "\") eqn:Eb; cbn.
      * rewrite Eq, Eb. cbn. now rewrite IH.
      * rewrite Eq, Eb. now rewrite IH.
Qed.

(** Induction on a JSON value, with the hypothesis on every nested value. *)
Lemma json_nested_ind (P : json -> Prop) :
  P JNull ->
  (forall b, P (JBool b)) ->
  (forall n, P (JInt n)) ->
  (forall s, P (JStr s)) ->
  (forall items, Forall P items -> P (JList items)) ->
  (forall members, Forall (fun kv => P (snd kv)) members -> P (JDict members)) ->
  forall v, P v.
Proof.
  intros HNull HBool HInt HStr HList HDict.
  fix IH 1. intros [| b | n | s | items | members].
  - exact HNull.
  - apply HBool.
  - apply HInt.
  - apply HStr.
  - apply HList. induction items as [| x items IHitems]; constructor.
    + apply IH.
    + exact IHitems.
  - apply HDict. induction members as [| [k x] members IHmembers]; constructor.
    + apply IH.
    + exact IHmembers.
Qed.

Lemma size_list (items : list json) : size (JList items) = S (size_items items).
Proof. reflexivity. Qed.

Lemma size_dict (members : list (string * json)) :
  size (JDict members) = S (size_members members).
Proof. reflexivity. Qed.

Lemma dumps_list (items : list json) :
  dumps (JList items) = ("[" ++ dumps_items items)%string.
Proof. reflexivity. Qed.

Lemma dumps_dict (members : list (string * json)) :
  dumps (JDict members) = ("{" ++ dumps_members members)%string.
Proof. reflexivity. Qed.

Lemma parse_value_space (fuel : nat) (s : string) :
  parse_value fuel (String " " s) = parse_value fuel s.
Proof. destruct fuel; reflexivity. Qed.

Lemma parse_elements_space (fuel : nat) (s : string) :
  parse_elements fuel (String " " s) = parse_elements fuel s.
Proof.
  destruct fuel; [reflexivity |]. cbn [parse_elements]. unfold elements_step.
  now rewrite parse_value_space.
Qed.

Lemma parse_members_space (fuel : nat) (s : string) :
  parse_members fuel (String " " s) = parse_members fuel s.
Proof. destruct fuel; reflexivity. Qed.

Lemma parse_elements_close (fuel : nat) (rest : string) :
  parse_elements fuel (String "]" rest) = None.
Proof. destruct fuel as [| [| fuel]]; reflexivity. Qed.

Lemma parse_members_close (fuel : nat) (rest : string) :
  parse_members fuel (String "}" rest) = None.
Proof. destruct fuel; reflexivity. Qed.

Lemma parse_dumps_items (items : list json) :
  Forall reads_back items -> items <> [] ->
  forall (fuel : nat) (rest : string),
    (size_items items <= fuel)%nat ->
    parse_elements fuel (dumps_items items ++ rest) = Some (items, rest).
Proof.
  induction 1 as [| x l Hx Hl IH]; [congruence |]. intros _ fuel rest Hfuel.
  cbn [size_items] in Hfuel. destruct fuel as [| fuel]; [lia |].
  cbn [parse_elements dumps_items]. unfold elements_step.
  rewrite append_assoc. unfold reads_back in Hx.
  rewrite Hx by (destruct l; solve [lia | reflexivity]).
  destruct l as [| y l']; [reflexivity |].
  change (more_or_close "]" x (parse_elements fuel)
            ((", " ++ dumps_items (y :: l')) ++ rest))
    with (cons_item x (parse_elements fuel
                         (String " " (dumps_items (y :: l') ++ rest)))).
  rewrite parse_elements_space, IH by (try discriminate; lia).
  reflexivity.
Qed.

Lemma members_step_key
  (value : string -> option (json * string))
  (members : string -> option (list (string * json) * string))
  (k s : string) :
  members_step value members (quote k ++ ": " ++ s)
  = match value (String " " s) with
    | None => None
    | Some (x, r) => more_or_close "}" (k, x) members r
    end.
Proof.
  unfold members_step, quote.
  change (skip_ws (String dquote ?t ++ ?u)) with (String dquote (t ++ u)).
  change (strip (String dquote "") (String dquote ?t)) with (Some t).
  cbv beta iota. rewrite append_assoc.
  change (String dquote "" ++ ?u)%string with (String dquote u).
  rewrite unquote_escape. reflexivity.
Qed.

Lemma parse_dumps_members (members : list (string * json)) :
  Forall (fun kv => reads_back (snd kv)) members -> members <> [] ->
  forall (fuel : nat) (rest : string),
    (size_members members <= fuel)%nat ->
    parse_members fuel (dumps_members members ++ rest) = Some (members, rest).
Proof.
  induction 1 as [| [k x] l Hx Hl IH]; [congruence |]. intros _ fuel rest Hfuel.
  cbn [size_members] in Hfuel. destruct fuel as [| fuel]; [lia |].
  cbn [parse_members dumps_members].
  rewrite !append_assoc, members_step_key, parse_value_space.
  cbn [snd] in Hx. unfold reads_back in Hx.
  rewrite Hx by (destruct l; solve [lia | reflexivity]).
  destruct l as [| y l']; [reflexivity |].
  change (more_or_close "}" (k, x) (parse_members fuel)
            ((", " ++ dumps_members (y :: l')) ++ rest))
    with (cons_item (k, x) (parse_members fuel
                              (String " " (dumps_members (y :: l') ++ rest)))).
  rewrite parse_members_space, IH by (try discriminate; lia).
  reflexivity.
Qed.

Theorem parse_dumps (v : json) : reads_back v.
Proof.
  induction v as [| b | n | s | items IH | members IH] using json_nested_ind;
    intros fuel rest Hfuel Hrest;
    (destruct fuel as [| fuel]; [cbn in Hfuel; lia |]).
  - reflexivity.
  - destruct b; reflexivity.
  - cbn [parse_value dumps]. unfold value_step.
    destruct (print_int_head n) as (c & t & E & Hc).
    destruct (is_num_char c Hc) as (Hws & Hl & Hd & Hq).
    rewrite E. cbn [append skip_ws]. rewrite Hws, Hl, Hd, Hq, Hc.
    change (String c (t ++ rest)) with (String c t ++ rest)%string.
    rewrite <- E, parse_print_int by exact Hrest. reflexivity.
  - cbn [parse_value dumps]. unfold value_step, quote.
    change (skip_ws (String dquote ?t ++ ?u)) with (String dquote (t ++ u)).
    cbv beta iota.
    change (Ascii.eqb dquote "[") with false.
    change (Ascii.eqb dquote "{") with false.
    change (Ascii.eqb dquote dquote) with true.
    cbv beta iota. rewrite append_assoc.
    change (String dquote "" ++ ?u)%string with (String dquote u).
    rewrite unquote_escape. reflexivity.
  - rewrite dumps_list. rewrite size_list in Hfuel.
    cbn [parse_value]. unfold value_step.
    change (skip_ws (("[" ++ ?t) ++ ?u)) with (String "[" (t ++ u)).
    cbv beta iota. change (Ascii.eqb "[" "[") with true. cbv beta iota.
    destruct items as [| x l].
    + change (dumps_items [] ++ rest)%string with (String "]" rest).
      rewrite parse_elements_close. reflexivity.
    + rewrite parse_dumps_items by (try discriminate; try assumption; lia).
      reflexivity.
  - rewrite dumps_dict. rewrite size_dict in Hfuel.
    cbn [parse_value]. unfold value_step.
    change (skip_ws (("{" ++ ?t) ++ ?u)) with (String "{" (t ++ u)).
    cbv beta iota.
    change (Ascii.eqb "{" "[") with false.
    change (Ascii.eqb "{" "{") with true. cbv beta iota.
    destruct members as [| kx l].
    + change (dumps_members [] ++ rest)%string with (String "}" rest).
      rewrite parse_members_close. reflexivity.
    + rewrite parse_dumps_members by (try discriminate; try assumption; lia).
      reflexivity.
Qed.

Lemma size_le_length (v : json) : (size v <= String.length (dumps v))%nat.
Proof.
  induction v as [| b | n | s | items IH | members IH] using json_nested_ind.
  - cbn. lia.
  - destruct b; cbn; lia.
  - destruct (print_int_head n) as (c & t & E & _). cbn [size dumps].
    rewrite E. cbn. lia.
  - cbn. lia.
  - rewrite dumps_list, size_list. cbn [append String.length]. apply le_n_S.
    induction IH as [| x l Hx Hl IHl]; [cbn; lia |].
    cbn [size_items dumps_items]. rewrite length_append.
    destruct l; [cbn in *; lia |].
    cbn [append String.length] in *. lia.
  - rewrite dumps_dict, size_dict. cbn [append String.length]. apply le_n_S.
    induction IH as [| [k x] l Hx Hl IHl]; [cbn; lia |].
    cbn [size_members dumps_members snd] in *.
    rewrite !length_append.
    destruct l; [cbn in *; lia |].
    cbn [append String.length] in *. lia.
Qed.

(** The two facts the score history relies on. *)
Theorem loads_dumps (v : json) : loads (dumps v) = Ok v.
Proof.
  unfold loads.
  rewrite <- (append_nil_r (dumps v)) at 2.
  now rewrite (parse_dumps v _ "" (size_le_length v) eq_refl).
Qed.

Lemma loads_empty : loads "" = Raise JSONDecodeError.
Proof. reflexivity. Qed.

End RefJsonFacts.

Section ScoreHistory.

Variable json_loads : string -> result json.
Variable json_dumps : json -> string.
Variable calculate_agent_credit_score : AgentData.t -> score_data.

(** What is assumed of Python's [json]: [loads] reads back what [dumps]
    wrote, and the empty text is not JSON. *)
Hypothesis loads_dumps : forall v, json_loads (json_dumps v) = Ok v.
Hypothesis loads_empty : json_loads "" = Raise JSONDecodeError.

Abbreviation load_history := (AIAgent.load_history json_loads).
Abbreviation update_credit_score :=
  (AIAgent.update_credit_score json_loads json_dumps
     calculate_agent_credit_score).
Abbreviation update_credit_score_times :=
  (AIAgent.update_credit_score_times json_loads json_dumps
     calculate_agent_credit_score).
Abbreviation get_credit_score_trend := (AIAgent.get_credit_score_trend json_loads).
Abbreviation score_of s self := (calculate_agent_credit_score (AIAgent.agent_data s self)).

Lemma dumps_not_empty (v : json) : String.eqb (json_dumps v) "" = false.
Proof.
  destruct (String.eqb_spec (json_dumps v) "") as [E |]; [| reflexivity].
  pose proof (loads_dumps v) as H. rewrite E, loads_empty in H. discriminate.
Qed.

Lemma load_history_ext (a b : AIAgent.t) :
  AIAgent.credit_score_history a = AIAgent.credit_score_history b ->
  load_history a = load_history b.
Proof. unfold AIAgent.load_history. now intros ->. Qed.

Lemma load_history_dumps (self : AIAgent.t) (v : json) :
  AIAgent.credit_score_history self = Some (json_dumps v) ->
  load_history self = Ok v.
Proof.
  unfold AIAgent.load_history. intros ->.
  now rewrite dumps_not_empty, loads_dumps.
Qed.

Lemma load_history_malformed (self : AIAgent.t) (text : string) :
  AIAgent.credit_score_history self = Some text ->
  json_loads text = Raise JSONDecodeError ->
  load_history self = Ok (JList []).
Proof.
  unfold AIAgent.load_history. intros -> ->. now destruct (String.eqb text "").
Qed.

(** One call on a history that loads as a list: the score is the scorer's
    on the agent data, and the stored text is the list with one more
    entry. *)
Lemma update_credit_score_appends (s : DB) (now : datetime)
  (self : AIAgent.t) (h : list json) :
  load_history self = Ok (JList h) ->
  update_credit_score s now self
  = Ok (score_of s self,
        AIAgent.mk (AIAgent.id self) (AIAgent.created_date self)
          (Some (score (score_of s self))) (Some now)
          (Some (json_dumps
                   (JList (h ++ [AIAgent.history_entry now (score_of s self)]))))).
Proof.
  intros Hload. unfold AIAgent.update_credit_score.
  change (AIAgent.load_history json_loads
            (AIAgent.mk _ _ _ _ (AIAgent.credit_score_history self)))
    with (load_history self).
  rewrite Hload. reflexivity.
Qed.

(** C7.  On an agent whose history text is rejected by [json.loads],
    [update_credit_score] returns the score data, having taken the history
    for empty: the text it leaves is the one-entry list of the new score,
    and loads as such. *)
Theorem update_resets_malformed_history (s : DB) (now : datetime)
  (self : AIAgent.t) (text : string) :
  AIAgent.credit_score_history self = Some text ->
  json_loads text = Raise JSONDecodeError ->
  exists self',
    update_credit_score s now self = Ok (score_of s self, self')
    /\ load_history self = Ok (JList [])
    /\ AIAgent.credit_score_history self'
       = Some (json_dumps (JList [AIAgent.history_entry now (score_of s self)]))
    /\ load_history self'
       = Ok (JList [AIAgent.history_entry now (score_of s self)]).
Proof.
  intros Htext Hbad.
  pose proof (load_history_malformed self text Htext Hbad) as Hload.
  eexists. split; [apply (update_credit_score_appends s now self [] Hload) |].
  split; [exact Hload |]. split; [reflexivity |].
  now apply load_history_dumps.
Qed.

(** C8.  After N calls of [update_credit_score] the history that loads is
    the one that loaded before, followed by N new entries. *)
Theorem history_is_append_only (calls : list (DB * datetime))
  (self : AIAgent.t) (h : list json) :
  load_history self = Ok (JList h) ->
  exists self' new,
    update_credit_score_times calls self = Ok self'
    /\ load_history self' = Ok (JList (h ++ new))
    /\ List.length new = List.length calls.
Proof.
  revert self h. induction calls as [| [s now] calls IH]; intros self h Hload.
  - exists self, []. now rewrite app_nil_r.
  - cbn [AIAgent.update_credit_score_times].
    rewrite (update_credit_score_appends s now self h Hload). cbn [bind snd].
    set (entry := AIAgent.history_entry now (score_of s self)).
    set (self1 := AIAgent.mk _ _ _ _ _).
    destruct (IH self1 (h ++ [entry])%list) as (self' & new & Hrun & Hload' & Hlen).
    { now apply load_history_dumps. }
    exists self', (entry :: new). split; [exact Hrun |]. split.
    + now rewrite Hload', <- app_assoc.
    + cbn. now rewrite Hlen.
Qed.

(** The deltas of consecutive scores add up to the last score minus the
    first. *)
Lemma sum_int_from (l : list Z) (a : Z) : fold_left Z.add l a = a + sum_int l.
Proof.
  unfold sum_int. revert a. induction l as [| x l IH]; intros a; cbn.
  - lia.
  - rewrite (IH (a + x)), (IH x). lia.
Qed.

Lemma last_cons_default (x a : Z) (l : list Z) : last (x :: l) a = last l x.
Proof.
  revert x a. induction l as [| y l IH]; intros x a; [reflexivity |].
  change (last (x :: y :: l) a) with (last (y :: l) a).
  now rewrite !IH.
Qed.

Lemma sum_consecutive_deltas (a : Z) (l : list Z) :
  sum_int (AIAgent.consecutive_deltas (a :: l)) = last l a - a.
Proof.
  revert a. induction l as [| b l IH]; intros a.
  - unfold sum_int. cbn. lia.
  - change (AIAgent.consecutive_deltas (a :: b :: l))
      with ((b - a) :: AIAgent.consecutive_deltas (b :: l)).
    unfold sum_int at 1. cbn [fold_left].
    rewrite sum_int_from, IH, last_cons_default. lia.
Qed.

Lemma get_credit_score_trend_of_list (self : AIAgent.t) (h : list json) :
  load_history self = Ok (JList h) ->
  get_credit_score_trend self
  = if (List.length h <? 2)%nat then Ok None
    else AIAgent.analyze_score_trend (JList h).
Proof.
  intros Hload. unfold AIAgent.get_credit_score_trend. rewrite Hload.
  destruct h as [| x [| y h]]; try reflexivity.
  cbn [bind json_truthy json_len truthy negb]. unfold len.
  destruct (Z.of_nat (List.length (x :: y :: h)) <? 2) eqn:E; [| reflexivity].
  apply Z.ltb_lt in E. cbn [List.length] in E. lia.
Qed.

(** C9.  On a history that loads as a list, [get_credit_score_trend]
    returns [None] for fewer than two entries and otherwise what
    [analyze_score_trend] makes of the list: for entries that carry a
    score, a trend over the deltas of consecutive scores. *)
Theorem trend_needs_two_entries (self : AIAgent.t) (h : list json) :
  load_history self = Ok (JList h) ->
  ((List.length h < 2)%nat -> get_credit_score_trend self = Ok None)
  /\ ((2 <= List.length h)%nat ->
      get_credit_score_trend self = AIAgent.analyze_score_trend (JList h)
      /\ forall scores,
           comprehension AIAgent.entry_score h = Ok scores ->
           exists tr,
             get_credit_score_trend self = Ok (Some tr)
             /\ AIAgent.deltas tr = AIAgent.consecutive_deltas scores
             /\ AIAgent.change tr = sum_int (AIAgent.consecutive_deltas scores)).
Proof.
  intros Hload. rewrite (get_credit_score_trend_of_list self h Hload). split.
  - intros Hlen. apply Nat.ltb_lt in Hlen. now rewrite Hlen.
  - intros Hlen. apply Nat.ltb_ge in Hlen. rewrite Hlen.
    split; [reflexivity |].
    intros scores Hscores. cbn [AIAgent.analyze_score_trend].
    rewrite Hscores. cbn [bind]. eexists. split; [reflexivity |]. now split.
Qed.

End ScoreHistory.

Lemma entry_score_history_entry (now : datetime) (sd : score_data) :
  AIAgent.entry_score (AIAgent.history_entry now sd) = Ok (score sd).
Proof. reflexivity. Qed.

Lemma update_resets_malformed_history_witness :
  exists self',
    AIAgent.update_credit_score RefJson.loads RefJson.dumps Scenario.scorer
      Scenario.with_late_repayment Scenario.now
      Scenario.agent_with_malformed_history
    = Ok (mk_score_data 575 (JDict []), self')
    /\ AIAgent.load_history RefJson.loads self'
       = Ok (JList [AIAgent.history_entry Scenario.now
                      (mk_score_data 575 (JDict []))]).
Proof.
  destruct (update_resets_malformed_history RefJson.loads RefJson.dumps
              Scenario.scorer RefJsonFacts.loads_dumps RefJsonFacts.loads_empty
              Scenario.with_late_repayment Scenario.now
              Scenario.agent_with_malformed_history "not json"
              eq_refl eq_refl)
    as (self' & Hrun & _ & _ & Hload).
  exists self'. split; [exact Hrun | exact Hload].
Defined.

Lemma history_is_append_only_witness :
  exists self' new,
    AIAgent.update_credit_score_times RefJson.loads RefJson.dumps Scenario.scorer
      [(Scenario.one_purchase, date 2024 1 18);
       (Scenario.with_late_repayment, date 2024 1 19)]
      Scenario.agent
    = Ok self'
    /\ AIAgent.load_history RefJson.loads self' = Ok (JList ([] ++ new))
    /\ List.length new = 2%nat.
Proof.
  exact (history_is_append_only RefJson.loads RefJson.dumps Scenario.scorer
           RefJsonFacts.loads_dumps RefJsonFacts.loads_empty
           [(Scenario.one_purchase, date 2024 1 18);
            (Scenario.with_late_repayment, date 2024 1 19)]
           Scenario.agent [] eq_refl).
Defined.

Lemma trend_needs_two_entries_witness :
  AIAgent.get_credit_score_trend RefJson.loads Scenario.agent = Ok None
  /\ exists tr,
       AIAgent.get_credit_score_trend RefJson.loads Scenario.agent_with_two_scores
       = Ok (Some tr)
       /\ AIAgent.deltas tr = [50] /\ AIAgent.change tr = 50.
Proof.
  split.
  - apply (trend_needs_two_entries RefJson.loads Scenario.agent [] eq_refl).
    cbn. lia.
  - assert (Hload : AIAgent.load_history RefJson.loads
                      Scenario.agent_with_two_scores
                    = Ok (JList [AIAgent.history_entry (date 2024 1 18)
                                   (mk_score_data 600 (JDict []));
                                 AIAgent.history_entry (date 2024 1 19)
                                   (mk_score_data 650 (JDict []))]))
      by (vm_compute; reflexivity).
    destruct (trend_needs_two_entries RefJson.loads _ _ Hload) as [_ H].
    destruct (H ltac:(cbn; lia)) as [_ Htrend].
    exact (Htrend [600; 650] eq_refl).
Defined.

(** * More properties of the code *)

(** ** [record_tradeline_performance]: the other fields, the exceptions,
       the store *)

(** The fields of a returned snapshot that [record_snapshot_inv] leaves
    out. *)
Lemma record_snapshot_fields (s : DB) (now : datetime) (tid : Z)
  (p : TradelinePerformance.t) (s' : DB) :
  record_tradeline_performance s now tid = Ok (Some p, s') ->
  TradelinePerformance.tradeline_id p = tid
  /\ record_date p = now
  /\ TradelinePerformance.id p
     = next_id (map TradelinePerformance.id (performance_records s))
  /\ transaction_count p
     = len (recent_transactions s now
              (map AIAgentAllocation.id (active_allocations s tid)))
  /\ transaction_volume p
     = Py.sum (map Transaction.amount
                 (recent_transactions s now
                    (map AIAgentAllocation.id (active_allocations s tid))))
  /\ avg_transaction_amount p
     = (if 0 <? transaction_count p
        then (transaction_volume p / float_of_int (transaction_count p))%float
        else 0%float)
  /\ repayments_on_time p
     = len (filter on_time
              (settled_repayments s
                 (map AIAgentAllocation.id (active_allocations s tid))))
  /\ exists ir,
       (exists tl, Tradeline_get s tid = Some tl
                   /\ Tradeline.interest_rate tl = Some ir)
       /\ interest_accrued p
          = (current_balance p * (ir / 100) / 365 * 30)%float.
Proof.
  unfold record_tradeline_performance.
  destruct (Tradeline_get s tid) as [tl |] eqn:Hget; [| discriminate].
  destruct (truthy _) eqn:Hids; [| discriminate]. cbn [negb].
  simpl_guards.
  destruct (filter late _) as [| r l] eqn:Hlate; [| discriminate].
  cbn [truthy bind].
  destruct (Tradeline.interest_rate tl) as [ir |] eqn:Hir; [| discriminate].
  rewrite interest_accrued_ok. cbn [bind].
  intros H. injection H as <- <-. cbn.
  repeat split; try reflexivity.
  exists ir. split; [exists tl; now split | reflexivity].
Qed.

(** On the repayments the aggregator reads (status 'paid' or 'late'), the
    two counting predicates are complementary. *)
Lemma late_or_on_time (r : Repayment.t) :
  str_is (Repayment.status r) "paid" || str_is (Repayment.status r) "late"
  = true ->
  on_time r = negb (late r).
Proof.
  unfold on_time, late. destruct (Repayment.status r) as [st |]; cbn.
  - destruct (String.eqb_spec st "paid") as [-> | Hp]; cbn.
    + intros _. now destruct (Repayment.is_late r).
    + now intros ->.
  - discriminate.
Qed.

Lemma settled_repayments_status (s : DB) (ids : list Z) (r : Repayment.t) :
  In r (settled_repayments s ids) ->
  str_is (Repayment.status r) "paid" || str_is (Repayment.status r) "late"
  = true.
Proof.
  unfold settled_repayments. intros H. apply filter_In in H as [_ H].
  now apply andb_true_iff in H as [_ H].
Qed.

Lemma len_filter_complement {A : Type} (f g : A -> bool) (l : list A) :
  (forall x, In x l -> f x = negb (g x)) ->
  len (filter f l) + len (filter g l) = len l.
Proof.
  unfold len. induction l as [| x l IH]; intros H; [reflexivity |].
  cbn [filter]. rewrite (H x (or_introl eq_refl)).
  assert (IH' := IH (fun y Hy => H y (or_intror Hy))).
  destruct (g x); cbn [negb List.length]; lia.
Qed.

Lemma settled_repayments_partition (s : DB) (ids : list Z) :
  len (filter on_time (settled_repayments s ids))
  + len (filter late (settled_repayments s ids))
  = len (settled_repayments s ids).
Proof.
  apply len_filter_complement. intros r Hr.
  apply late_or_on_time, (settled_repayments_status s ids r Hr).
Qed.

(** X1.  Every repayment the aggregator reads is counted exactly once:
    on-time count plus late count is the number of 'paid' and 'late'
    repayments in scope. *)
Theorem on_time_and_late_partition (s : DB) (allocation_ids : list Z) :
  len (filter on_time (settled_repayments s allocation_ids))
  + len (filter late (settled_repayments s allocation_ids))
  = len (settled_repayments s allocation_ids).
Proof. apply settled_repayments_partition. Qed.

(** X2.  A snapshot that is returned never reports a late repayment or a
    delinquent day: all the repayments in scope were on time. *)
Theorem snapshot_reports_no_late_repayment (s : DB) (now : datetime) (tid : Z)
  (p : TradelinePerformance.t) (s' : DB) :
  record_tradeline_performance s now tid = Ok (Some p, s') ->
  repayments_late p = 0
  /\ days_delinquent p = 0
  /\ repayments_on_time p
     = len (settled_repayments s
              (map AIAgentAllocation.id (active_allocations s tid)))
  /\ forall r,
       In r (settled_repayments s
               (map AIAgentAllocation.id (active_allocations s tid))) ->
       Repayment.is_late r = false /\ str_is (Repayment.status r) "paid" = true.
Proof.
  intros H.
  destruct (record_snapshot_inv _ _ _ _ _ H)
    as (tl & ir & _ & _ & _ & Hnone & _ & _ & _ & _ & _ & Hlate & _ & Hdays & _).
  destruct (record_snapshot_fields _ _ _ _ _ H)
    as (_ & _ & _ & _ & _ & _ & Hon & _).
  pose proof (settled_repayments_partition s
                (map AIAgentAllocation.id (active_allocations s tid))) as Hsum.
  rewrite Hnone in Hlate, Hsum. cbn in Hlate, Hsum.
  split; [exact Hlate |]. split; [exact Hdays |]. split.
  - rewrite Hon. unfold len in *. lia.
  - intros r Hr.
    assert (Hnot : late r = false).
    { destruct (late r) eqn:E; [| reflexivity].
      assert (Hin : In r (filter late (settled_repayments s
                (map AIAgentAllocation.id (active_allocations s tid)))))
        by (apply filter_In; now split).
      rewrite Hnone in Hin. destruct Hin. }
    pose proof (settled_repayments_status _ _ _ Hr) as Hst.
    unfold late in Hnot. apply orb_false_iff in Hnot as [Hl Hi].
    split; [exact Hi |]. now rewrite Hl, orb_false_r in Hst.
Qed.

Lemma snapshot_reports_no_late_repayment_witness :
  exists p s',
    record_tradeline_performance Scenario.one_purchase Scenario.now 1
    = Ok (Some p, s')
    /\ repayments_late p = 0 /\ days_delinquent p = 0.
Proof.
  destruct (record_snapshot_exists Scenario.one_purchase Scenario.now 1
              Scenario.tradeline 12%float eq_refl eq_refl eq_refl eq_refl)
    as [p Hp].
  exists p, (add_performance p Scenario.one_purchase).
  destruct (snapshot_reports_no_late_repayment _ _ _ _ _ Hp) as (H1 & H2 & _).
  now repeat split.
Defined.

(** X3.  The only exceptions of [record_tradeline_performance]: an
    AttributeError exactly when a 'paid' or 'late' repayment in scope is
    late, and otherwise a TypeError exactly when the tradeline has no
    interest rate. *)
Theorem record_raises_iff (s : DB) (now : datetime) (tid : Z) :
  (record_tradeline_performance s now tid = Raise AttributeError
   <-> Tradeline_get s tid <> None
       /\ active_allocations s tid <> []
       /\ exists r,
            In r (settled_repayments s
                    (map AIAgentAllocation.id (active_allocations s tid)))
            /\ late r = true)
  /\ (record_tradeline_performance s now tid = Raise TypeError
      <-> exists tl,
            Tradeline_get s tid = Some tl
            /\ active_allocations s tid <> []
            /\ Tradeline.interest_rate tl = None
            /\ forall r,
                 In r (settled_repayments s
                         (map AIAgentAllocation.id (active_allocations s tid))) ->
                 late r = false).
Proof.
  unfold record_tradeline_performance.
  destruct (Tradeline_get s tid) as [tl |] eqn:Hget.
  2:{ split; (split; [discriminate |]).
      - now intros [H _].
      - intros (tl & H & _). discriminate. }
  destruct (active_allocations s tid) as [| a l] eqn:Hact.
  { cbn. split; (split; [discriminate |]).
    - now intros (_ & H & _).
    - now intros (tl' & _ & H & _). }
  cbn [map truthy negb]. simpl_guards.
  set (ids := AIAgentAllocation.id a :: map AIAgentAllocation.id l).
  destruct (filter late (settled_repayments s ids)) as [| r rs] eqn:Hlate.
  - assert (Hnone : forall r, In r (settled_repayments s ids) -> late r = false).
    { intros r Hr. destruct (late r) eqn:E; [| reflexivity].
      assert (Hin : In r (filter late (settled_repayments s ids)))
        by (apply filter_In; now split).
      rewrite Hlate in Hin. destruct Hin. }
    cbn [truthy bind].
    destruct (Tradeline.interest_rate tl) as [ir |] eqn:Hir.
    + rewrite interest_accrued_ok. cbn [bind].
      split; (split; [discriminate |]).
      * intros (_ & _ & r & Hr & E). rewrite (Hnone r Hr) in E. discriminate.
      * intros (tl' & [= <-] & _ & Hnoir & _). congruence.
    + cbn [bind]. split; split.
      * discriminate.
      * intros (_ & _ & r & Hr & E). rewrite (Hnone r Hr) in E. discriminate.
      * intros _. exists tl. repeat split; try assumption. discriminate.
      * reflexivity.
  - cbn [truthy comprehension bind Repayment.days_overdue].
    assert (Hin : In r (filter late (settled_repayments s ids)))
      by (rewrite Hlate; now left).
    apply filter_In in Hin as [Hr E].
    split; split.
    + intros _. repeat split; try discriminate. now exists r.
    + reflexivity.
    + discriminate.
    + intros (tl' & _ & _ & _ & Hnone). rewrite (Hnone r Hr) in E. discriminate.
Qed.

Lemma record_raises_iff_witness :
  record_tradeline_performance
    (mkDB [Tradeline.mk 1 10000%float 10000%float None None None]
          [Scenario.allocation] [Scenario.purchase 1 2500%float] [] [])
    Scenario.now 1
  = Raise TypeError.
Proof.
  apply (proj2 (record_raises_iff _ Scenario.now 1)).
  eexists. split; [reflexivity |]. split; [discriminate |].
  split; [reflexivity |]. intros r [].
Defined.

(** Two stores with the same tradelines, allocations, transactions and
    repayments give the same metrics: the performance table is not read. *)
Lemma record_frame (s1 s2 : DB) (now : datetime) (tid : Z)
  (p1 : TradelinePerformance.t) (s1' : DB) :
  tradelines s1 = tradelines s2 ->
  allocations s1 = allocations s2 ->
  transactions s1 = transactions s2 ->
  repayments s1 = repayments s2 ->
  record_tradeline_performance s1 now tid = Ok (Some p1, s1') ->
  exists p2,
    record_tradeline_performance s2 now tid
    = Ok (Some p2, add_performance p2 s2)
    /\ snapshot_metrics p2 = snapshot_metrics p1.
Proof.
  destruct s1 as [tls als txs rps prs1], s2 as [tls2 als2 txs2 rps2 prs2].
  cbn [tradelines allocations transactions repayments].
  intros <- <- <- <-.
  unfold record_tradeline_performance, Tradeline_get, active_allocations,
    completed_transactions, recent_transactions, settled_repayments.
  cbn [tradelines allocations transactions repayments performance_records].
  destruct (find _ tls) as [tl |]; [| discriminate].
  destruct (truthy _); [| discriminate]. cbn [negb].
  simpl_guards.
  destruct (filter late _) as [| r l]; [| discriminate].
  cbn [truthy bind].
  destruct (Tradeline.interest_rate tl) as [ir |]; [| discriminate].
  rewrite interest_accrued_ok. cbn [bind].
  intros [= <- _]. eexists. split; reflexivity.
Qed.

(** X4.  A returned snapshot is appended to the performance records, which
    are otherwise kept, and no other table changes; a second call at the same
    time returns the same metrics again. *)
Theorem record_appends_and_repeats (s : DB) (now : datetime) (tid : Z)
  (p : TradelinePerformance.t) (s' : DB) :
  record_tradeline_performance s now tid = Ok (Some p, s') ->
  performance_records s' = (performance_records s ++ [p])%list
  /\ tradelines s' = tradelines s
  /\ allocations s' = allocations s
  /\ transactions s' = transactions s
  /\ repayments s' = repayments s
  /\ TradelinePerformance.tradeline_id p = tid
  /\ exists p' s'',
       record_tradeline_performance s' now tid = Ok (Some p', s'')
       /\ snapshot_metrics p' = snapshot_metrics p
       /\ performance_records s'' = (performance_records s ++ [p; p'])%list.
Proof.
  intros H.
  destruct (record_snapshot_inv _ _ _ _ _ H)
    as (tl & ir & _ & _ & _ & _ & -> & _).
  destruct (record_snapshot_fields _ _ _ _ _ H) as (Htid & _).
  do 5 (split; [reflexivity |]). split; [exact Htid |].
  destruct (record_frame s (add_performance p s) now tid p _
              eq_refl eq_refl eq_refl eq_refl H) as (p' & Hp' & Hm).
  exists p', (add_performance p' (add_performance p s)).
  split; [exact Hp' |]. split; [exact Hm |].
  cbn. now rewrite <- app_assoc.
Qed.

Lemma record_appends_and_repeats_witness :
  exists p s',
    record_tradeline_performance Scenario.one_purchase Scenario.now 1
    = Ok (Some p, s')
    /\ performance_records s' = [p].
Proof.
  destruct (record_snapshot_exists Scenario.one_purchase Scenario.now 1
              Scenario.tradeline 12%float eq_refl eq_refl eq_refl eq_refl)
    as [p Hp].
  exists p, (add_performance p Scenario.one_purchase).
  split; [exact Hp |].
  exact (proj1 (record_appends_and_repeats _ _ _ _ _ Hp)).
Defined.

Lemma len_filter_le {A : Type} (f : A -> bool) (l : list A) :
  0 <= len (filter f l) <= len l.
Proof.
  unfold len. induction l as [| x l IH]; cbn [filter]; [cbn; lia |].
  destruct (f x); cbn [List.length]; lia.
Qed.

Lemma recent_of_completed (s : DB) (now : datetime) (ids : list Z) :
  recent_transactions s now ids
  = filter (fun tx => match Transaction.transaction_date tx with
                      | Some d => now - days 30 <=? d
                      | None => false
                      end)
           (completed_transactions s ids).
Proof.
  unfold recent_transactions, completed_transactions.
  induction (transactions s) as [| tx l IH]; [reflexivity |].
  cbn [filter].
  destruct (in_ _ ids && str_is _ "completed"); cbn [andb filter];
    now rewrite IH.
Qed.

(** X5.  The transaction count of a snapshot is the number of completed
    transactions on the active allocations that carry a date of the last 30
    days (from [now] - 30 days on, that instant included; a transaction
    without a date is not counted), and the volume is the sum of their
    amounts.  The count is therefore at most the number of completed
    transactions behind the balance; with no recent transaction the volume
    and the average are 0 and no division is attempted, otherwise the
    average is volume / count. *)
Theorem recent_transaction_metrics (s : DB) (now : datetime) (tid : Z)
  (p : TradelinePerformance.t) (s' : DB) :
  record_tradeline_performance s now tid = Ok (Some p, s') ->
  let completed :=
    completed_transactions s
      (map AIAgentAllocation.id (active_allocations s tid)) in
  let in_window (tx : Transaction.t) :=
    match Transaction.transaction_date tx with
    | Some d => now - days 30 <=? d
    | None => false
    end in
  transaction_count p = len (filter in_window completed)
  /\ transaction_volume p
     = Py.sum (map Transaction.amount (filter in_window completed))
  /\ 0 <= transaction_count p <= len completed
  /\ (transaction_count p = 0 ->
      transaction_volume p = 0%float /\ avg_transaction_amount p = 0%float)
  /\ (0 < transaction_count p ->
      avg_transaction_amount p
      = (transaction_volume p / float_of_int (transaction_count p))%float).
Proof.
  intros H completed in_window.
  destruct (record_snapshot_fields _ _ _ _ _ H)
    as (_ & _ & _ & Hc & Hv & Ha & _).
  rewrite recent_of_completed in Hc, Hv.
  fold completed in Hc, Hv. fold in_window in Hc, Hv.
  split; [exact Hc |]. split; [exact Hv |]. split; [| split].
  - rewrite Hc. apply len_filter_le.
  - intros H0. rewrite Ha, Hv, H0. split; [| reflexivity].
    rewrite H0 in Hc. unfold len in Hc.
    destruct (filter in_window completed); [reflexivity | discriminate].
  - intros Hpos. rewrite Ha. apply Z.ltb_lt in Hpos. now rewrite Hpos.
Qed.

Lemma recent_transaction_metrics_witness :
  exists p s',
    record_tradeline_performance old_and_undated_purchases Scenario.now 1
    = Ok (Some p, s')
    /\ current_balance p = 3000%float
    /\ transaction_count p = 1
    /\ transaction_volume p = 2500%float
    /\ avg_transaction_amount p = 2500%float.
Proof.
  destruct (record_snapshot_exists old_and_undated_purchases Scenario.now 1
              Scenario.tradeline 12%float eq_refl eq_refl eq_refl eq_refl)
    as [p Hp].
  exists p, (add_performance p old_and_undated_purchases).
  destruct (recent_transaction_metrics _ _ _ _ _ Hp)
    as (Hc & Hv & _ & _ & Havg).
  split; [exact Hp |].
  assert (Hcount : transaction_count p = 1) by (rewrite Hc; reflexivity).
  assert (Hvol : transaction_volume p = 2500%float)
    by (rewrite Hv; reflexivity).
  split; [vm_compute in Hp; injection Hp as <-; reflexivity |].
  split; [exact Hcount |]. split; [exact Hvol |].
  rewrite Havg by (rewrite Hcount; lia).
  rewrite Hvol, Hcount. reflexivity.
Defined.

(** ** [Repayment]: statuses and dates *)

Lemma late_is_not_missed (now : datetime) (r : Repayment.t) :
  Repayment.is_late r = true -> Repayment.is_missed now r = false.
Proof.
  unfold Repayment.is_late, Repayment.is_missed.
  now destruct (Repayment.payment_date r).
Qed.

(** X6.  [update_status] makes the status agree with the dates: afterwards
    the status is 'late' exactly when the payment came after the due date,
    'missed' exactly when an unpaid repayment is past due, and the
    aggregator counts the repayment late exactly when its status is 'late'
    and on time exactly when it is 'paid'.  A repayment is never both late
    and missed. *)
Theorem update_status_agrees_with_dates (now : datetime) (r : Repayment.t) :
  let r' := Repayment.update_status now r in
  (Repayment.status r' = Some "late" <-> Repayment.is_late r = true)
  /\ (Repayment.status r' = Some "missed" <-> Repayment.is_missed now r = true)
  /\ (Repayment.status r' = Some "paid"
      <-> Repayment.payment_date r <> None /\ Repayment.is_late r = false)
  /\ late r' = str_is (Repayment.status r') "late"
  /\ on_time r' = str_is (Repayment.status r') "paid"
  /\ (Repayment.is_late r && Repayment.is_missed now r = false).
Proof.
  unfold Repayment.update_status, late, on_time, Repayment.is_late,
    Repayment.is_missed.
  cbn [Repayment.status Repayment.payment_date Repayment.due_date].
  destruct (Repayment.payment_date r) as [pd |];
    destruct (Repayment.due_date r) as [d |]; cbn;
    try destruct (d <? pd); try destruct (d <? now); cbn;
    repeat split; try discriminate; try reflexivity; try congruence;
    try (intros [? ?]; congruence); try (intros [? ?]; discriminate).
Qed.

(** X7.  [update_status] changes nothing but the status: every other
    column of the repayment keeps its value; and a second call at the same
    time changes nothing at all. *)
Theorem update_status_idempotent (now : datetime) (r : Repayment.t) :
  let r' := Repayment.update_status now r in
  Repayment.update_status now r' = r'
  /\ r' = Repayment.mk (Repayment.id r) (Repayment.agent_id r)
            (Repayment.tradeline_allocation_id r) (Repayment.amount r)
            (Repayment.due_date r) (Repayment.payment_date r)
            (Repayment.status r')
  /\ Repayment.id r' = Repayment.id r
  /\ Repayment.agent_id r' = Repayment.agent_id r
  /\ Repayment.amount r' = Repayment.amount r
  /\ Repayment.due_date r' = Repayment.due_date r
  /\ Repayment.payment_date r' = Repayment.payment_date r
  /\ Repayment.tradeline_allocation_id r' = Repayment.tradeline_allocation_id r.
Proof.
  cbv zeta. split; [| repeat split].
  unfold Repayment.update_status, Repayment.is_late, Repayment.is_missed.
  cbn [Repayment.id Repayment.agent_id Repayment.tradeline_allocation_id
       Repayment.amount Repayment.due_date Repayment.payment_date].
  reflexivity.
Qed.

(** X8.  A scheduled repayment processed after its due date is stored as
    'paid' although it is late ([update_status] would store 'late'); the
    aggregator counts it late, and the next snapshot of a tradeline that has
    it in scope raises AttributeError. *)
Theorem late_processing_breaks_the_snapshot (paid_at d : datetime)
  (r r' : Repayment.t) :
  process_repayment paid_at r = Some r' ->
  Repayment.due_date r = Some d ->
  d < paid_at ->
  Repayment.status r' = Some "paid"
  /\ Repayment.is_late r' = true
  /\ (forall now, Repayment.status (Repayment.update_status now r') = Some "late")
  /\ late r' = true /\ on_time r' = false
  /\ forall (s : DB) (now : datetime) (tid : Z),
       Tradeline_get s tid <> None ->
       In r' (repayments s) ->
       in_ (Repayment.tradeline_allocation_id r')
           (map AIAgentAllocation.id (active_allocations s tid)) = true ->
       record_tradeline_performance s now tid = Raise AttributeError.
Proof.
  unfold process_repayment. intros H Hd Hlt.
  destruct (str_is (Repayment.status r) "scheduled"); [| discriminate].
  injection H as <-.
  assert (Hlate : Repayment.is_late
            (Repayment.mk (Repayment.id r) (Repayment.agent_id r)
               (Repayment.tradeline_allocation_id r) (Repayment.amount r)
               (Repayment.due_date r) (Some paid_at) (Some "paid")) = true).
  { unfold Repayment.is_late. cbn. rewrite Hd. now apply Z.ltb_lt. }
  split; [reflexivity |]. split; [exact Hlate |]. split.
  { intros now. unfold Repayment.update_status.
    cbn [Repayment.payment_date Repayment.status]. now rewrite Hlate. }
  assert (Hl : late (Repayment.mk (Repayment.id r) (Repayment.agent_id r)
               (Repayment.tradeline_allocation_id r) (Repayment.amount r)
               (Repayment.due_date r) (Some paid_at) (Some "paid")) = true).
  { unfold late. now rewrite Hlate, orb_true_r. }
  split; [exact Hl |]. split.
  { unfold on_time. now rewrite Hlate, andb_false_r. }
  intros s now tid Hget Hin Hscope.
  destruct (Tradeline_get s tid) as [tl |] eqn:Htl; [| contradiction].
  apply (record_late_raises s now tid tl Htl).
  - destruct (map AIAgentAllocation.id (active_allocations s tid));
      [discriminate | reflexivity].
  - match goal with
    | |- truthy ?l = true =>
        assert (Hmem : In (Repayment.mk (Repayment.id r) (Repayment.agent_id r)
                  (Repayment.tradeline_allocation_id r) (Repayment.amount r)
                  (Repayment.due_date r) (Some paid_at) (Some "paid")) l)
    end.
    { apply filter_In. split; [| exact Hl].
      unfold settled_repayments. apply filter_In. split; [exact Hin |].
      now rewrite Hscope. }
    destruct (filter late _); [destruct Hmem | reflexivity].
Qed.

Lemma late_processing_breaks_the_snapshot_witness :
  process_repayment (date 2024 1 15)
    (Repayment.mk 1 3 7 2500%float (Some (date 2024 1 1)) None
       (Some "scheduled"))
  = Some (Repayment.mk 1 3 7 2500%float (Some (date 2024 1 1))
            (Some (date 2024 1 15)) (Some "paid"))
  /\ record_tradeline_performance
       (mkDB [Scenario.tradeline] [Scenario.allocation]
             [Scenario.purchase 1 2500%float]
             [Repayment.mk 1 3 7 2500%float (Some (date 2024 1 1))
                (Some (date 2024 1 15)) (Some "paid")] [])
       Scenario.now 1
     = Raise AttributeError.
Proof.
  split; [reflexivity |].
  refine (proj2 (proj2 (proj2 (proj2 (proj2
    (late_processing_breaks_the_snapshot (date 2024 1 15) (date 2024 1 1)
       (Repayment.mk 1 3 7 2500%float (Some (date 2024 1 1)) None
          (Some "scheduled"))
       (Repayment.mk 1 3 7 2500%float (Some (date 2024 1 1))
          (Some (date 2024 1 15)) (Some "paid"))
       eq_refl eq_refl eq_refl))))) _ Scenario.now 1 _ _ _).
  - discriminate.
  - now left.
  - reflexivity.
Defined.

(** ** [DefiRepayment] and [DefiLoan] *)

Lemma more_than_30_days (delta : timedelta) :
  (30 <? td_days delta) = true <-> days 31 <= delta.
Proof.
  unfold td_days, days, us_per_day. rewrite Z.ltb_lt. split; intros H.
  - assert (31 <= delta / 86400000000) by lia.
    pose proof (Z.mul_div_le delta 86400000000 eq_refl). lia.
  - assert (31 <= delta / 86400000000); [| lia].
    apply Z.div_le_lower_bound; lia.
Qed.

(** X9.  [days_overdue] is never negative; it is 0 for a paid instalment and
    for one not yet due, and when it is [n] the due date lies at least [n]
    and less than [n + 1] whole days back. *)
Theorem defi_days_overdue_bounds (now : datetime) (r : DefiRepayment.t) :
  0 <= DefiRepayment.days_overdue now r
  /\ (DefiRepayment.payment_date r <> None -> DefiRepayment.days_overdue now r = 0)
  /\ (now <= DefiRepayment.due_date r -> DefiRepayment.days_overdue now r = 0)
  /\ (DefiRepayment.payment_date r = None ->
      DefiRepayment.due_date r < now ->
      DefiRepayment.due_date r + days (DefiRepayment.days_overdue now r) <= now
      /\ now < DefiRepayment.due_date r
               + days (DefiRepayment.days_overdue now r + 1)).
Proof.
  unfold DefiRepayment.days_overdue, DefiRepayment.is_late.
  destruct (DefiRepayment.payment_date r) as [pd |].
  - repeat split; try reflexivity; try lia; discriminate.
  - destruct (DefiRepayment.due_date r <? now) eqn:E.
    + apply Z.ltb_lt in E. unfold td_days, days, us_per_day.
      pose proof (Z.div_pos (now - DefiRepayment.due_date r) 86400000000).
      pose proof (Z.mul_div_le (now - DefiRepayment.due_date r) 86400000000
                    eq_refl).
      pose proof (Z.mul_succ_div_gt (now - DefiRepayment.due_date r)
                    86400000000 eq_refl).
      repeat split; try lia. congruence.
    + apply Z.ltb_ge in E. repeat split; try reflexivity; lia.
Qed.

Lemma defi_days_overdue_bounds_witness :
  DefiRepayment.days_overdue (date 2024 1 15 + hours 23)
    (DefiRepayment.mk 1 1 1 100%float (date 2024 1 1) None (Some "scheduled"))
  = 14.
Proof.
  destruct (defi_days_overdue_bounds (date 2024 1 15 + hours 23)
              (DefiRepayment.mk 1 1 1 100%float (date 2024 1 1) None
                 (Some "scheduled"))) as (_ & _ & _ & H).
  destruct (H eq_refl eq_refl) as [Hlow Hhigh].
  reflexivity.
Defined.

Ltac status_cases :=
  repeat split; intros;
  repeat match goal with H : _ /\ _ |- _ => destruct H end;
  solve [discriminate | congruence | lia].

(** X10.  [update_status] of a DeFi instalment: 'paid' as soon as a payment
    date is set, however late; otherwise 'scheduled' up to the due date,
    'late' after it, and 'missed' from 31 whole days after it. *)
Theorem defi_update_status_spec (now : datetime) (r : DefiRepayment.t) :
  let r' := DefiRepaymentStatus.update_status now r in
  (DefiRepayment.status r' = Some "paid" <-> DefiRepayment.payment_date r <> None)
  /\ (DefiRepayment.status r' = Some "scheduled"
      <-> DefiRepayment.payment_date r = None /\ now <= DefiRepayment.due_date r)
  /\ (DefiRepayment.status r' = Some "late"
      <-> DefiRepayment.payment_date r = None
          /\ DefiRepayment.due_date r < now < DefiRepayment.due_date r + days 31)
  /\ (DefiRepayment.status r' = Some "missed"
      <-> DefiRepayment.payment_date r = None
          /\ DefiRepayment.due_date r + days 31 <= now).
Proof.
  cbv zeta. unfold DefiRepaymentStatus.update_status,
    DefiRepayment.days_overdue, DefiRepayment.is_late.
  destruct (DefiRepayment.payment_date r) as [pd |].
  { cbn. status_cases. }
  destruct (DefiRepayment.due_date r <? now) eqn:E.
  - apply Z.ltb_lt in E.
    destruct (30 <? td_days (now - DefiRepayment.due_date r)) eqn:E30.
    + apply more_than_30_days in E30. unfold days, us_per_day in *. cbn.
      status_cases.
    + assert (H30 : ~ days 31 <= now - DefiRepayment.due_date r).
      { intros H. apply more_than_30_days in H. congruence. }
      unfold days, us_per_day in *. cbn. status_cases.
  - apply Z.ltb_ge in E. cbn. unfold days, us_per_day. status_cases.
Qed.

Lemma first_by_due_date_spec (l : list DefiRepayment.t) :
  match DefiLoan.first_by_due_date l with
  | None => l = []
  | Some r =>
      In r l /\ forall x, In x l ->
                          DefiRepayment.due_date r <= DefiRepayment.due_date x
  end.
Proof.
  induction l as [| a l IH]; [reflexivity |]. cbn [DefiLoan.first_by_due_date].
  destruct (DefiLoan.first_by_due_date l) as [r' |].
  - destruct IH as [Hin Hmin].
    destruct (DefiRepayment.due_date r' <? DefiRepayment.due_date a) eqn:E.
    + apply Z.ltb_lt in E. split; [now right |].
      intros x [<- | Hx]; [lia | now apply Hmin].
    + apply Z.ltb_ge in E. split; [now left |].
      intros x [<- | Hx]; [lia | specialize (Hmin x Hx); lia].
  - subst l. split; [now left |]. intros x [<- | []]. lia.
Qed.

(** X11.  [next_payment] is [None] exactly when the loan has no scheduled
    instalment; otherwise it is a scheduled instalment of the loan whose due
    date no other scheduled instalment of the loan precedes. *)
Theorem next_payment_is_earliest (table : list DefiRepayment.t)
  (loan : DefiLoan.t) :
  (DefiLoan.next_payment table loan = None
   <-> forall r, In r table -> DefiRepayment.loan_id r = DefiLoan.id loan ->
                 DefiRepayment.status r <> Some "scheduled")
  /\ forall r,
       DefiLoan.next_payment table loan = Some r ->
       In r table
       /\ DefiRepayment.loan_id r = DefiLoan.id loan
       /\ DefiRepayment.status r = Some "scheduled"
       /\ forall x, In x table ->
                    DefiRepayment.loan_id x = DefiLoan.id loan ->
                    DefiRepayment.status x = Some "scheduled" ->
                    DefiRepayment.due_date r <= DefiRepayment.due_date x.
Proof.
  assert (Hmem : forall r,
    In r (DefiLoan.repayments_with "scheduled" table loan)
    <-> In r table /\ DefiRepayment.loan_id r = DefiLoan.id loan
        /\ DefiRepayment.status r = Some "scheduled").
  { intros r. unfold DefiLoan.repayments_with. rewrite filter_In, andb_true_iff.
    rewrite Z.eqb_eq. unfold str_is.
    destruct (DefiRepayment.status r) as [st |].
    - rewrite String.eqb_eq. intuition congruence.
    - intuition congruence. }
  unfold DefiLoan.next_payment.
  pose proof (first_by_due_date_spec
                (DefiLoan.repayments_with "scheduled" table loan)) as Hspec.
  destruct (DefiLoan.first_by_due_date _) as [r0 |].
  - destruct Hspec as [Hin Hmin]. split.
    + split; [discriminate |]. intros Hnone. exfalso.
      apply Hmem in Hin as (Hin & Hid & Hst). exact (Hnone r0 Hin Hid Hst).
    + intros r [= <-]. apply Hmem in Hin as (Hin & Hid & Hst).
      repeat split; try assumption.
      intros x Hx Hxid Hxst. apply Hmin, Hmem. now repeat split.
  - split; [| discriminate]. split; [| reflexivity].
    intros _ r Hr Hid Hst.
    assert (Hin : In r (DefiLoan.repayments_with "scheduled" table loan))
      by (apply Hmem; now repeat split).
    rewrite Hspec in Hin. destruct Hin.
Qed.

Lemma liquidated_table_has_no_scheduled (table : list DefiRepayment.t)
  (loan loan' : DefiLoan.t) :
  DefiLoan.id loan' = DefiLoan.id loan ->
  DefiLoan.repayments_with "scheduled"
    (map (fun r =>
            if (DefiRepayment.loan_id r =? DefiLoan.id loan)
               && str_is (DefiRepayment.status r) "scheduled"
            then DefiRepaymentStatus.set_status "missed" r
            else r)
         table) loan'
  = [].
Proof.
  intros Hid. unfold DefiLoan.repayments_with. rewrite Hid.
  induction table as [| r table IH]; [reflexivity |]. cbn [map filter].
  destruct ((DefiRepayment.loan_id r =? DefiLoan.id loan)
            && str_is (DefiRepayment.status r) "scheduled") eqn:E.
  - apply andb_true_iff in E as [E _]. cbn. rewrite E. exact IH.
  - rewrite E. exact IH.
Qed.

Lemma liquidated_table_keeps_paid (table : list DefiRepayment.t)
  (loan loan' : DefiLoan.t) :
  DefiLoan.id loan' = DefiLoan.id loan ->
  DefiLoan.repayments_with "paid"
    (map (fun r =>
            if (DefiRepayment.loan_id r =? DefiLoan.id loan)
               && str_is (DefiRepayment.status r) "scheduled"
            then DefiRepaymentStatus.set_status "missed" r
            else r)
         table) loan'
  = DefiLoan.repayments_with "paid" table loan.
Proof.
  intros Hid. unfold DefiLoan.repayments_with. rewrite Hid.
  induction table as [| r table IH]; [reflexivity |]. cbn [map filter].
  destruct ((DefiRepayment.loan_id r =? DefiLoan.id loan)
            && str_is (DefiRepayment.status r) "scheduled") eqn:E.
  - apply andb_true_iff in E as [E1 E2]. cbn. rewrite E1. cbn.
    unfold str_is in E2. destruct (DefiRepayment.status r) as [st |];
      [| discriminate].
    apply String.eqb_eq in E2. subst st. cbn. exact IH.
  - now rewrite IH.
Qed.

(** X12.  Liquidating the collateral of a collateralised loan marks the loan
    defaulted and liquidated, leaves it no scheduled instalment (so no next
    payment), keeps its paid instalments and thus its outstanding balance,
    and touches no instalment of another loan; the collateral is then no
    longer sufficient, and a second liquidation changes nothing. *)
Theorem liquidation_effects (now : datetime) (table : list DefiRepayment.t)
  (loan : DefiLoan.t) :
  opt_bool_truthy (DefiLoan.has_collateral loan) = true ->
  opt_bool_truthy (DefiLoan.collateral_liquidated loan) = false ->
  exists loan' table',
    DefiLoan.liquidate_collateral now table loan = (true, loan', table')
    /\ DefiLoan.status loan' = Some "defaulted"
    /\ DefiLoan.collateral_liquidated loan' = Some true
    /\ DefiLoan.liquidation_date loan' = Some now
    /\ DefiLoan.next_payment table' loan' = None
    /\ DefiLoan.calculate_current_balance table' loan'
       = DefiLoan.calculate_current_balance table loan
    /\ List.length table' = List.length table
    /\ (forall r, In r table ->
                  DefiRepayment.loan_id r <> DefiLoan.id loan
                  \/ DefiRepayment.status r <> Some "scheduled" ->
                  In r table')
    /\ DefiLoan.is_collateral_sufficient table' loan' = Ok false
    /\ forall later,
         DefiLoan.liquidate_collateral later table' loan'
         = (false, loan', table').
Proof.
  intros Hhas Hliq. unfold DefiLoan.liquidate_collateral.
  rewrite Hhas, Hliq. cbn [negb orb].
  eexists _, _. split; [reflexivity |].
  split; [reflexivity |]. split; [reflexivity |]. split; [reflexivity |].
  split.
  { unfold DefiLoan.next_payment.
    now rewrite liquidated_table_has_no_scheduled. }
  split.
  { unfold DefiLoan.calculate_current_balance.
    now rewrite liquidated_table_keeps_paid. }
  split; [apply length_map |]. split.
  { intros r Hin Hother. apply in_map_iff. exists r. split; [| exact Hin].
    destruct ((DefiRepayment.loan_id r =? DefiLoan.id loan)
              && str_is (DefiRepayment.status r) "scheduled") eqn:E;
      [| reflexivity].
    apply andb_true_iff in E as [E1 E2]. apply Z.eqb_eq in E1.
    unfold str_is in E2. destruct (DefiRepayment.status r) as [st |];
      [| discriminate].
    apply String.eqb_eq in E2. subst st. destruct Hother; congruence. }
  split.
  { unfold DefiLoan.is_collateral_sufficient.
    cbn [DefiLoan.has_collateral DefiLoan.collateral_liquidated opt_bool_truthy].
    now rewrite orb_true_r. }
  intros later.
  cbn [DefiLoan.has_collateral DefiLoan.collateral_liquidated opt_bool_truthy].
  now rewrite orb_true_r.
Qed.

Lemma liquidation_effects_witness :
  exists loan' table',
    DefiLoan.liquidate_collateral (date 2024 3 1)
      [DefiRepayment.mk 1 5 1 100%float (date 2024 2 1) (Some (date 2024 2 1))
         (Some "paid");
       DefiRepayment.mk 2 5 2 100%float (date 2024 4 1) None (Some "scheduled")]
      (DefiLoan.mk 5 3 180%float 200%float (Some "active") (Some true)
         (Some 150%float) (Some false) None)
    = (true, loan', table')
    /\ DefiLoan.next_payment table' loan' = None
    /\ DefiLoan.calculate_current_balance table' loan' = 100%float.
Proof.
  destruct (liquidation_effects (date 2024 3 1)
      [DefiRepayment.mk 1 5 1 100%float (date 2024 2 1) (Some (date 2024 2 1))
         (Some "paid");
       DefiRepayment.mk 2 5 2 100%float (date 2024 4 1) None (Some "scheduled")]
      (DefiLoan.mk 5 3 180%float 200%float (Some "active") (Some true)
         (Some 150%float) (Some false) None) eq_refl eq_refl)
    as (loan' & table' & Hrun & _ & _ & _ & Hnext & Hbal & _).
  exists loan', table'. split; [exact Hrun |]. split; [exact Hnext |].
  rewrite Hbal. reflexivity.
Defined.

(** X13.  The 'missed' mark of a liquidation does not survive
    [update_status]: an instalment of the loan that was scheduled, unpaid and
    not yet due is 'missed' in the liquidated table, and [update_status]
    turns it back into the scheduled instalment it was. *)
Theorem update_status_undoes_liquidation (now later : datetime)
  (table : list DefiRepayment.t) (loan : DefiLoan.t) (r : DefiRepayment.t) :
  opt_bool_truthy (DefiLoan.has_collateral loan) = true ->
  opt_bool_truthy (DefiLoan.collateral_liquidated loan) = false ->
  In r table ->
  DefiRepayment.loan_id r = DefiLoan.id loan ->
  DefiRepayment.status r = Some "scheduled" ->
  DefiRepayment.payment_date r = None ->
  later <= DefiRepayment.due_date r ->
  In (DefiRepaymentStatus.set_status "missed" r)
     (snd (DefiLoan.liquidate_collateral now table loan))
  /\ DefiRepaymentStatus.update_status later
       (DefiRepaymentStatus.set_status "missed" r)
     = r.
Proof.
  intros Hhas Hliq Hin Hid Hst Hpd Hdue. split.
  - unfold DefiLoan.liquidate_collateral. rewrite Hhas, Hliq. cbn [negb orb snd].
    apply in_map_iff. exists r. split; [| exact Hin].
    rewrite Hid, Z.eqb_refl, Hst. reflexivity.
  - unfold DefiRepaymentStatus.update_status, DefiRepayment.is_late,
      DefiRepaymentStatus.set_status.
    cbn [DefiRepayment.payment_date DefiRepayment.due_date].
    rewrite Hpd. apply Z.ltb_ge in Hdue. rewrite Hdue.
    destruct r as [i l n a d p st]. cbn in *. now subst.
Qed.

Lemma update_status_undoes_liquidation_witness :
  DefiRepaymentStatus.update_status (date 2024 3 2)
    (DefiRepaymentStatus.set_status "missed"
       (DefiRepayment.mk 2 5 2 100%float (date 2024 4 1) None
          (Some "scheduled")))
  = DefiRepayment.mk 2 5 2 100%float (date 2024 4 1) None (Some "scheduled").
Proof.
  exact (proj2 (update_status_undoes_liquidation (date 2024 3 1) (date 2024 3 2)
    [DefiRepayment.mk 2 5 2 100%float (date 2024 4 1) None (Some "scheduled")]
    (DefiLoan.mk 5 3 180%float 200%float (Some "active") (Some true)
       (Some 150%float) (Some false) None)
    (DefiRepayment.mk 2 5 2 100%float (date 2024 4 1) None (Some "scheduled"))
    eq_refl eq_refl (or_introl eq_refl) eq_refl eq_refl eq_refl
    ltac:(vm_compute; discriminate))).
Defined.

Lemma float_not_nonpos_nonzero (x : float) :
  (x <=? 0)%float = false -> (x =? 0)%float = false.
Proof.
  rewrite leb_spec, eqb_spec. unfold SFleb, SFeqb.
  change (Prim2SF 0) with (S754_zero false).
  destruct (Prim2SF x) as [sg | sg | | sg m e]; simpl; try reflexivity;
    try discriminate; destruct sg; intros; try discriminate; reflexivity.
Qed.

(** X14.  The two percentages of a loan never raise: [payment_progress]
    divides only by a positive total and is 0 otherwise, and
    [collateral_to_loan_ratio] divides only by an amount that is not zero
    and is 0 for a loan without collateral, with no or a zero collateral
    amount, or with an amount at most 0. *)
Theorem defi_percentages_never_raise (round : float -> Z -> float)
  (table : list DefiRepayment.t) (loan : DefiLoan.t) :
  (exists x, DefiLoan.payment_progress round table loan = Ok x)
  /\ ((0 <? DefiLoan.total_repayment loan)%float = false ->
      DefiLoan.payment_progress round table loan = Ok 0%float)
  /\ (exists y, DefiLoan.collateral_to_loan_ratio round loan = Ok y)
  /\ (opt_bool_truthy (DefiLoan.has_collateral loan) = false
      \/ opt_float_truthy (DefiLoan.collateral_amount loan) = false
      \/ (DefiLoan.amount loan <=? 0)%float = true ->
      DefiLoan.collateral_to_loan_ratio round loan = Ok 0%float).
Proof.
  unfold DefiLoan.payment_progress, DefiLoan.collateral_to_loan_ratio.
  split; [| split; [| split]].
  - destruct (0 <? DefiLoan.total_repayment loan)%float eqn:E;
      [| eexists; reflexivity].
    unfold truediv. rewrite (float_pos_nonzero _ E). eexists; reflexivity.
  - now intros ->.
  - destruct (opt_bool_truthy (DefiLoan.has_collateral loan));
      [| eexists; reflexivity].
    destruct (DefiLoan.collateral_amount loan) as [c |];
      [| eexists; reflexivity].
    cbn [negb orb opt_float_truthy].
    destruct (float_truthy c); [| eexists; reflexivity]. cbn [negb orb].
    destruct (DefiLoan.amount loan <=? 0)%float eqn:E;
      [eexists; reflexivity |].
    unfold truediv. rewrite (float_not_nonpos_nonzero _ E).
    eexists; reflexivity.
  - intros [-> | [-> | ->]]; [reflexivity | |].
    + now rewrite orb_true_r.
    + now rewrite !orb_true_r.
Qed.

Lemma defi_percentages_never_raise_witness :
  DefiLoan.payment_progress (fun x _ => x) []
    (DefiLoan.mk 5 3 0%float 0%float (Some "pending") None None None None)
  = Ok 0%float.
Proof.
  exact (proj1 (proj2 (defi_percentages_never_raise (fun x _ => x) []
    (DefiLoan.mk 5 3 0%float 0%float (Some "pending") None None None None)))
    eq_refl).
Defined.

(** X15.  [is_collateral_sufficient] is [False] for a loan without
    collateral or already liquidated, and its only exception is the
    TypeError of a collateralised loan with no collateral amount. *)
Theorem is_collateral_sufficient_outcomes (table : list DefiRepayment.t)
  (loan : DefiLoan.t) :
  (opt_bool_truthy (DefiLoan.has_collateral loan) = false
   \/ opt_bool_truthy (DefiLoan.collateral_liquidated loan) = true ->
   DefiLoan.is_collateral_sufficient table loan = Ok false)
  /\ (forall e, DefiLoan.is_collateral_sufficient table loan = Raise e ->
                e = TypeError)
  /\ (DefiLoan.is_collateral_sufficient table loan = Raise TypeError
      <-> opt_bool_truthy (DefiLoan.has_collateral loan) = true
          /\ opt_bool_truthy (DefiLoan.collateral_liquidated loan) = false
          /\ DefiLoan.collateral_amount loan = None).
Proof.
  unfold DefiLoan.is_collateral_sufficient.
  destruct (opt_bool_truthy (DefiLoan.has_collateral loan));
    destruct (opt_bool_truthy (DefiLoan.collateral_liquidated loan));
    destruct (DefiLoan.collateral_amount loan) as [c |]; cbn;
    (split; [| split; [| split]]); intros;
    repeat match goal with H : _ /\ _ |- _ => destruct H
                      | H : _ \/ _ |- _ => destruct H end;
    try discriminate; try congruence; auto.
Qed.

(** ** [PromoCode], [TradelinePurchase], [User] *)

Lemma increment_usage_times (n : nat) (c : PromoCode.t) :
  PromoCode.current_uses (Nat.iter n PromoCode.increment_usage c)
  = PromoCode.current_uses c + Z.of_nat n
  /\ PromoCode.is_active (Nat.iter n PromoCode.increment_usage c)
     = PromoCode.is_active c
  /\ PromoCode.valid_until (Nat.iter n PromoCode.increment_usage c)
     = PromoCode.valid_until c
  /\ PromoCode.max_uses (Nat.iter n PromoCode.increment_usage c)
     = PromoCode.max_uses c
  /\ PromoCode.discount_percentage (Nat.iter n PromoCode.increment_usage c)
     = PromoCode.discount_percentage c.
Proof.
  induction n as [| n (IH1 & IH2 & IH3 & IH4 & IH5)].
  - cbn. repeat split. lia.
  - rewrite Nat.iter_succ, Nat2Z.inj_succ.
    cbn [PromoCode.increment_usage PromoCode.current_uses
         PromoCode.is_active PromoCode.valid_until PromoCode.max_uses
         PromoCode.discount_percentage].
    repeat split; try assumption. lia.
Qed.

(** X16.  A promo code with a maximum number of uses stops being valid once
    it has been used that often, whatever the date, and [apply_discount]
    then returns the original price. *)
Theorem promo_code_is_used_up (c : PromoCode.t) (m : Z) (n : nat) :
  PromoCode.max_uses c = Some m ->
  m <= PromoCode.current_uses c + Z.of_nat n ->
  forall (now : datetime) (original_price : float),
    PromoCode.is_valid now (Nat.iter n PromoCode.increment_usage c) = false
    /\ PromoCode.apply_discount now (Nat.iter n PromoCode.increment_usage c)
         original_price
       = original_price.
Proof.
  intros Hmax Hn now price.
  destruct (increment_usage_times n c) as (Hu & Ha & Hv & Hm & _).
  assert (Hinvalid :
    PromoCode.is_valid now (Nat.iter n PromoCode.increment_usage c) = false).
  { unfold PromoCode.is_valid. rewrite Hu, Ha, Hv, Hm, Hmax.
    destruct (negb _); [reflexivity |].
    destruct (match PromoCode.valid_until c with
              | Some u => u <? now | None => false end); [reflexivity |].
    assert (E : (m <=? PromoCode.current_uses c + Z.of_nat n) = true)
      by now apply Z.leb_le.
    now rewrite E. }
  split; [exact Hinvalid |].
  unfold PromoCode.apply_discount. now rewrite Hinvalid.
Qed.

Lemma promo_code_is_used_up_witness :
  PromoCode.is_valid (date 2024 1 20)
    (Nat.iter 2 PromoCode.increment_usage
       (PromoCode.mk 1 "WELCOME" 20 (Some true) None None (Some 2) 0))
  = false
  /\ PromoCode.apply_discount (date 2024 1 20)
       (PromoCode.mk 1 "WELCOME" 20 (Some true) None None (Some 2) 0)
       100%float
     = 80%float.
Proof.
  split; [| reflexivity].
  exact (proj1 (promo_code_is_used_up
    (PromoCode.mk 1 "WELCOME" 20 (Some true) None None (Some 2) 0) 2 2
    eq_refl ltac:(cbn; lia) (date 2024 1 20) 0%float)).
Defined.

(** X17.  A promo code that is not valid never becomes valid again by the
    passing of time or by further uses. *)
Theorem promo_code_stays_invalid (c : PromoCode.t) (now later : datetime)
  (n : nat) :
  PromoCode.is_valid now c = false ->
  now <= later ->
  PromoCode.is_valid later (Nat.iter n PromoCode.increment_usage c) = false.
Proof.
  intros Hinvalid Hlater.
  destruct (increment_usage_times n c) as (Hu & Ha & Hv & Hm & _).
  revert Hinvalid. unfold PromoCode.is_valid. rewrite Hu, Ha, Hv, Hm.
  destruct (negb _); [reflexivity |].
  destruct (PromoCode.valid_until c) as [u |].
  - destruct (u <? now) eqn:E1.
    + intros _. apply Z.ltb_lt in E1.
      assert (E2 : (u <? later) = true) by (apply Z.ltb_lt; lia).
      now rewrite E2.
    + destruct (u <? later); [reflexivity |].
      destruct (PromoCode.max_uses c) as [m |]; [| discriminate].
      destruct (m <=? PromoCode.current_uses c) eqn:E3; [| discriminate].
      intros _. apply Z.leb_le in E3.
      assert (E4 : (m <=? PromoCode.current_uses c + Z.of_nat n) = true)
        by (apply Z.leb_le; lia).
      now rewrite E4.
  - destruct (PromoCode.max_uses c) as [m |]; [| discriminate].
    destruct (m <=? PromoCode.current_uses c) eqn:E3; [| discriminate].
    intros _. apply Z.leb_le in E3.
    assert (E4 : (m <=? PromoCode.current_uses c + Z.of_nat n) = true)
      by (apply Z.leb_le; lia).
    now rewrite E4.
Qed.

Lemma promo_code_stays_invalid_witness :
  PromoCode.is_valid (date 2024 3 1)
    (Nat.iter 1 PromoCode.increment_usage
       (PromoCode.mk 1 "WELCOME" 20 (Some true) None (Some (date 2024 1 1))
          None 0))
  = false.
Proof.
  apply (promo_code_stays_invalid
    (PromoCode.mk 1 "WELCOME" 20 (Some true) None (Some (date 2024 1 1)) None 0)
    (date 2024 2 1) (date 2024 3 1) 1 eq_refl).
  vm_compute. discriminate.
Defined.

(** X18.  A purchase with no original price, or with a price paid that is
    missing or zero (a purchase discounted to nothing), reports a discount
    of 0 and a discount percentage of 0.0; the percentage never raises. *)
Theorem free_purchase_reports_no_discount (round : float -> Z -> float)
  (p : TradelinePurchase.t) :
  (exists x, TradelinePurchase.get_discount_percentage round p = Ok x)
  /\ (opt_float_truthy (TradelinePurchase.original_price p) = false
      \/ opt_float_truthy (TradelinePurchase.price_paid p) = false ->
      TradelinePurchase.get_discount_amount p = 0%float
      /\ TradelinePurchase.get_discount_percentage round p = Ok 0%float).
Proof.
  unfold TradelinePurchase.get_discount_percentage,
    TradelinePurchase.get_discount_amount.
  destruct (TradelinePurchase.original_price p) as [o |];
    destruct (TradelinePurchase.price_paid p) as [pd |];
    cbn [opt_float_truthy];
    try (split; [eexists; reflexivity | intros _; split; reflexivity]).
  split.
  - destruct (float_truthy o && float_truthy pd && (0 <? o)%float) eqn:E;
      [| eexists; reflexivity].
    apply andb_true_iff in E as [_ E]. unfold truediv.
    rewrite (float_pos_nonzero _ E). eexists; reflexivity.
  - intros [-> | ->]; [| rewrite andb_false_r]; cbn [andb]; now split.
Qed.

Lemma free_purchase_reports_no_discount_witness :
  TradelinePurchase.get_discount_amount
    (TradelinePurchase.mk 1 1 2 (Some 0%float) (Some 100%float) (Some 1))
  = 0%float.
Proof.
  exact (proj1 (proj2 (free_purchase_reports_no_discount (fun x _ => x)
    (TradelinePurchase.mk 1 1 2 (Some 0%float) (Some 100%float) (Some 1)))
    (or_intror eq_refl))).
Defined.

(** X19.  A reset token verifies for exactly 24 hours: after
    [generate_reset_token] at [issued], [verify_reset_token] at [now] is
    [True] for the generated token while [now] is before [issued] + 24 h,
    and [False] from then on and for every other token. *)
Theorem reset_token_verifies_for_24_hours (issued now : datetime)
  (token presented : string) (user : User.t) :
  fst (User.generate_reset_token issued token user) = token
  /\ User.verify_reset_token now
       (snd (User.generate_reset_token issued token user)) presented
     = Ok (String.eqb token presented && (now <? issued + hours 24)).
Proof.
  split; [reflexivity |].
  unfold User.verify_reset_token, User.generate_reset_token.
  cbn [snd User.reset_password_token User.reset_password_expires str_is].
  now destruct (String.eqb token presented).
Qed.

(** A user's reset fields as the three methods leave them: both set or both
    missing. *)
Lemma reset_fields_consistent_after (issued : datetime) (token : string)
  (user : User.t) :
  let generated := snd (User.generate_reset_token issued token user) in
  let cleared := User.clear_reset_token user in
  (User.reset_password_token generated = None
   <-> User.reset_password_expires generated = None)
  /\ (User.reset_password_token cleared = None
      <-> User.reset_password_expires cleared = None).
Proof. cbn. split; split; congruence. Qed.

(** X20.  A cleared token verifies for no one, also right after it was
    generated; and on a user whose token and expiry are both set or both
    missing, [verify_reset_token] never raises, while a token stored without
    an expiry makes it raise TypeError for that token. *)
Theorem cleared_token_never_verifies (user : User.t) (now : datetime)
  (presented : string) :
  User.verify_reset_token now (User.clear_reset_token user) presented = Ok false
  /\ (forall issued token,
        User.verify_reset_token now
          (User.clear_reset_token
             (snd (User.generate_reset_token issued token user)))
          presented
        = Ok false)
  /\ ((User.reset_password_token user = None
       <-> User.reset_password_expires user = None) ->
      exists b, User.verify_reset_token now user presented = Ok b)
  /\ (User.reset_password_token user = Some presented ->
      User.reset_password_expires user = None ->
      User.verify_reset_token now user presented = Raise TypeError).
Proof.
  split; [reflexivity |]. split; [reflexivity |]. split.
  - intros Hcons. unfold User.verify_reset_token.
    destruct (str_is (User.reset_password_token user) presented) eqn:E;
      [| eexists; reflexivity].
    destruct (User.reset_password_expires user) as [e |];
      [eexists; reflexivity |].
    rewrite (proj2 Hcons eq_refl) in E. discriminate.
  - intros Ht He. unfold User.verify_reset_token.
    rewrite Ht, He. cbn. now rewrite String.eqb_refl.
Qed.

(** ** [AIAgent]: the trend on a history that is not a list, and the
       lateness flag of the agent data *)

(** X21.  [get_credit_score_trend] guards the call of [len] only against
    [json.loads] failing: a history text that loads as a number other than 0
    or as [true] raises TypeError, while one that loads as [null], [false],
    0, an empty string, an empty list or an empty dictionary gives [None]. *)
Theorem trend_of_scalar_history (json_loads : string -> result json)
  (self : AIAgent.t) (text : string) (v : json) :
  AIAgent.credit_score_history self = Some text ->
  text <> "" ->
  json_loads text = Ok v ->
  ((exists n, v = JInt n /\ n <> 0) \/ v = JBool true ->
   AIAgent.get_credit_score_trend json_loads self = Raise TypeError)
  /\ (json_truthy v = false ->
      AIAgent.get_credit_score_trend json_loads self = Ok None).
Proof.
  intros Htext Hne Hloads.
  assert (Hload : AIAgent.load_history json_loads self = Ok v).
  { unfold AIAgent.load_history. rewrite Htext.
    destruct (String.eqb_spec text ""); [contradiction |]. now rewrite Hloads. }
  unfold AIAgent.get_credit_score_trend. rewrite Hload. cbn [bind]. split.
  - intros [(n & -> & Hn) | ->]; cbn; [| reflexivity].
    destruct (Z.eqb_spec n 0); [contradiction | reflexivity].
  - now intros ->.
Qed.

Lemma trend_of_scalar_history_witness :
  AIAgent.get_credit_score_trend RefJson.loads
    (AIAgent.mk 3 None (Some 600) None (Some "5"))
  = Raise TypeError.
Proof.
  refine (proj1 (trend_of_scalar_history RefJson.loads
    (AIAgent.mk 3 None (Some 600) None (Some "5")) "5" (JInt 5)
    eq_refl _ eq_refl) (or_introl (ex_intro _ 5 (conj eq_refl _)))).
  - discriminate.
  - discriminate.
Defined.

(** X22.  The lateness flag of the agent data is [Repayment.is_late]: the
    scorer sees a repayment as late only by its dates.  The aggregator also
    counts a repayment late by its status, so every repayment late for the
    scorer is late for the aggregator, and a repayment with status 'late'
    whose dates do not say so is late for the aggregator only. *)
Theorem scorer_and_aggregator_lateness (r : Repayment.t) :
  AgentData.rep_is_late (AIAgent.repayment_item r) = Repayment.is_late r
  /\ (AgentData.rep_is_late (AIAgent.repayment_item r) = true -> late r = true)
  /\ (Repayment.status r = Some "late" ->
      Repayment.payment_date r = None \/ Repayment.due_date r = None ->
      late r = true /\ AgentData.rep_is_late (AIAgent.repayment_item r) = false).
Proof.
  assert (Hsame : AgentData.rep_is_late (AIAgent.repayment_item r)
                  = Repayment.is_late r) by reflexivity.
  split; [exact Hsame |]. split.
  - rewrite Hsame. unfold late. intros ->. apply orb_true_r.
  - intros Hst Hmissing. rewrite Hsame. unfold late. rewrite Hst. cbn.
    split; [reflexivity |]. unfold Repayment.is_late.
    destruct Hmissing as [-> | ->]; [reflexivity |].
    now destruct (Repayment.payment_date r).
Qed.
(** ** [create_performance_records] of [add_tradeline_performance.py] *)

Lemma migration_recent_is_filter (now : datetime) (l l' : list Transaction.t) :
  AddTradelinePerformance.recent_transactions now l = Ok l' ->
  l' = filter (fun tx => match Transaction.transaction_date tx with
                         | Some d => now - days 30 <=? d
                         | None => false
                         end) l.
Proof.
  revert l'. induction l as [| tx l IH]; intros l'; cbn.
  - now intros [= <-].
  - destruct (Transaction.transaction_date tx) as [d |]; [| discriminate].
    destruct (AddTradelinePerformance.recent_transactions now l) as [rest | e];
      [| discriminate].
    cbn [bind]. intros [= <-]. rewrite (IH rest eq_refl).
    now destruct (now - days 30 <=? d).
Qed.

(** The query of [record_tradeline_performance] keeps, of the repayments the
    script reads, those with status 'paid' or 'late'. *)
Lemma settled_of_all (s : DB) (ids : list Z) :
  settled_repayments s ids
  = filter (fun r => str_is (Repayment.status r) "paid"
                     || str_is (Repayment.status r) "late")
           (AddTradelinePerformance.repayments_of s ids).
Proof.
  unfold settled_repayments, AddTradelinePerformance.repayments_of.
  induction (repayments s) as [| r l IH]; [reflexivity |].
  cbn [filter].
  destruct (in_ (Repayment.tradeline_allocation_id r) ids);
    cbn [andb filter]; [| exact IH].
  destruct (str_is (Repayment.status r) "paid"
            || str_is (Repayment.status r) "late"); now rewrite IH.
Qed.

Lemma settled_is_all (s : DB) (ids : list Z) :
  (forall r, In r (repayments s) ->
             in_ (Repayment.tradeline_allocation_id r) ids = true ->
             str_is (Repayment.status r) "paid"
             || str_is (Repayment.status r) "late" = true) ->
  settled_repayments s ids = AddTradelinePerformance.repayments_of s ids.
Proof.
  intros H. unfold settled_repayments, AddTradelinePerformance.repayments_of.
  apply filter_ext_in. intros r Hr.
  destruct (in_ (Repayment.tradeline_allocation_id r) ids) eqn:E;
    [| reflexivity].
  now rewrite (H r Hr E).
Qed.

Lemma filter_filter_nil {A : Type} (f g : A -> bool) (l : list A) :
  filter f l = [] -> filter f (filter g l) = [].
Proof.
  induction l as [| x l IH]; [reflexivity |]. cbn [filter].
  destruct (f x) eqn:Ef; [discriminate |]. intros H.
  destruct (g x); cbn [filter]; [rewrite Ef |]; now apply IH.
Qed.

Lemma filter_filter_implied {A : Type} (f g : A -> bool) (l : list A) :
  (forall x, f x = true -> g x = true) ->
  filter f (filter g l) = filter f l.
Proof.
  intros H. induction l as [| x l IH]; [reflexivity |]. cbn [filter].
  destruct (g x) eqn:Eg; cbn [filter].
  - now rewrite IH.
  - destruct (f x) eqn:Ef; [| exact IH].
    rewrite (H x Ef) in Eg. discriminate.
Qed.

Lemma on_time_is_settled (r : Repayment.t) :
  on_time r = true ->
  str_is (Repayment.status r) "paid" || str_is (Repayment.status r) "late"
  = true.
Proof.
  unfold on_time. now destruct (str_is (Repayment.status r) "paid").
Qed.

Lemma truthy_map {A B : Type} (f : A -> B) (l : list A) :
  truthy (map f l) = truthy l.
Proof. now destruct l. Qed.

(** X23.  Where the body of the migration's loop builds a record for a
    tradeline found by its id, [record_tradeline_performance] returns a
    snapshot for that tradeline, and the two agree on the tradeline, on the
    balance, the available credit and the utilization, on the three
    transaction metrics, on the on-time and late counts, the days
    delinquent and the interest.  The migration sums the repayments of
    every status where the snapshot sums the 'paid' and 'late' ones: the
    total of repayments, the payment ratio and the risk score agree when
    every repayment on the tradeline's active allocations is 'paid' or
    'late'.  The migration's object has no key and no record date. *)
Theorem migration_agrees_with_record (s : DB) (now : datetime)
  (tradeline : Tradeline.t)
  (p : AddTradelinePerformance.TradelinePerformance) :
  AddTradelinePerformance.performance_record s now tradeline = Ok (Some p) ->
  Tradeline_get s (Tradeline.id tradeline) = Some tradeline ->
  let ids :=
    map AIAgentAllocation.id (active_allocations s (Tradeline.id tradeline)) in
  exists p' s',
    record_tradeline_performance s now (Tradeline.id tradeline)
    = Ok (Some p', s')
    /\ AddTradelinePerformance.id p = None
    /\ AddTradelinePerformance.record_date p = None
    /\ AddTradelinePerformance.tradeline_id p
       = TradelinePerformance.tradeline_id p'
    /\ (AddTradelinePerformance.current_balance p,
        AddTradelinePerformance.available_credit p,
        AddTradelinePerformance.utilization_rate p)
       = (current_balance p', available_credit p', utilization_rate p')
    /\ (AddTradelinePerformance.transaction_count p,
        AddTradelinePerformance.transaction_volume p,
        AddTradelinePerformance.avg_transaction_amount p)
       = (transaction_count p', transaction_volume p',
          avg_transaction_amount p')
    /\ (AddTradelinePerformance.repayments_on_time p,
        AddTradelinePerformance.repayments_late p,
        AddTradelinePerformance.days_delinquent p,
        AddTradelinePerformance.interest_accrued p)
       = (repayments_on_time p', repayments_late p', days_delinquent p',
          interest_accrued p')
    /\ AddTradelinePerformance.total_repayments p
       = Py.sum (map Repayment.amount
                   (AddTradelinePerformance.repayments_of s ids))
    /\ total_repayments p'
       = Py.sum (map Repayment.amount (settled_repayments s ids))
    /\ ((forall r, In r (repayments s) ->
                   in_ (Repayment.tradeline_allocation_id r) ids = true ->
                   str_is (Repayment.status r) "paid"
                   || str_is (Repayment.status r) "late" = true) ->
        (AddTradelinePerformance.total_repayments p,
         AddTradelinePerformance.payment_ratio p,
         AddTradelinePerformance.risk_score p)
        = (total_repayments p', payment_ratio p', risk_score p')).
Proof.
  intros H Hget ids.
  unfold record_tradeline_performance. rewrite Hget.
  rewrite recent_of_completed, truthy_map.
  revert H. unfold AddTradelinePerformance.performance_record.
  fold ids.
  destruct (truthy (active_allocations s (Tradeline.id tradeline)));
    [| discriminate].
  cbn [negb].
  destruct (truthy (completed_transactions s ids)); [| discriminate].
  cbn [negb]. rewrite !guarded_truediv. cbn [bind].
  destruct (AddTradelinePerformance.recent_transactions now _)
    as [recent | e] eqn:Hrecent; [| discriminate].
  apply migration_recent_is_filter in Hrecent. rewrite <- Hrecent.
  cbn [bind]. rewrite !guarded_truediv_int. cbn [bind].
  destruct (filter late (AddTradelinePerformance.repayments_of s ids))
    as [| r rs] eqn:Hlate; [| discriminate].
  assert (Hlate' : filter late (settled_repayments s ids) = [])
    by (rewrite settled_of_all; now apply filter_filter_nil).
  assert (Hon : filter on_time (settled_repayments s ids)
                = filter on_time (AddTradelinePerformance.repayments_of s ids))
    by (rewrite settled_of_all; apply filter_filter_implied;
        exact on_time_is_settled).
  rewrite Hlate', Hon. cbn [truthy bind].
  destruct (Tradeline.interest_rate tradeline) as [ir |]; [| discriminate].
  rewrite !interest_accrued_ok. cbn [bind].
  intros [= <-]. eexists _, _. split; [reflexivity |].
  cbn. repeat split.
  intros Hsettled. now rewrite (settled_is_all _ _ Hsettled).
Qed.

Lemma migration_agrees_with_record_witness :
  exists p p' s',
    AddTradelinePerformance.performance_record with_paid_on_time
      Scenario.now Scenario.tradeline
    = Ok (Some p)
    /\ record_tradeline_performance with_paid_on_time Scenario.now 1
       = Ok (Some p', s')
    /\ AddTradelinePerformance.repayments_on_time p = 1
    /\ repayments_on_time p' = 1
    /\ (AddTradelinePerformance.total_repayments p,
        AddTradelinePerformance.payment_ratio p,
        AddTradelinePerformance.risk_score p)
       = (total_repayments p', payment_ratio p', risk_score p')
    /\ total_repayments p' = 500%float.
Proof.
  eexists.
  assert (Hp : AddTradelinePerformance.performance_record with_paid_on_time
                 Scenario.now Scenario.tradeline = Ok (Some _))
    by (vm_compute; reflexivity).
  destruct (migration_agrees_with_record _ _ _ _ Hp eq_refl)
    as (p' & s' & Hrun & _ & _ & _ & _ & _ & Hcounts & _ & Htotal & Hrest).
  exists p', s'. split; [exact Hp |]. split; [exact Hrun |].
  injection Hcounts as Hon _ _ _.
  split; [reflexivity |]. split; [rewrite <- Hon; reflexivity |].
  split.
  - apply Hrest. intros r [<- | []] _. reflexivity.
  - rewrite Htotal. reflexivity.
Defined.

(** A tradeline with activity and a late repayment on one of its active
    allocations makes the body of the loop raise. *)
Lemma migration_record_raises (s : DB) (now : datetime)
  (tradeline : Tradeline.t) (r : Repayment.t) :
  active_allocations s (Tradeline.id tradeline) <> [] ->
  completed_transactions s
    (map AIAgentAllocation.id (active_allocations s (Tradeline.id tradeline)))
  <> [] ->
  In r (repayments s) ->
  in_ (Repayment.tradeline_allocation_id r)
      (map AIAgentAllocation.id (active_allocations s (Tradeline.id tradeline)))
  = true ->
  late r = true ->
  exists e,
    AddTradelinePerformance.performance_record s now tradeline = Raise e.
Proof.
  intros Hact Htx Hin Hscope Hlate.
  unfold AddTradelinePerformance.performance_record.
  destruct (active_allocations s (Tradeline.id tradeline)) as [| a l] eqn:E;
    [contradiction |].
  cbn [truthy negb]. rewrite <- E in *.
  destruct (completed_transactions s _) as [| tx txs] eqn:E2; [contradiction |].
  cbn [truthy negb]. rewrite !guarded_truediv. cbn [bind].
  destruct (AddTradelinePerformance.recent_transactions now _) as [recent | e];
    [| eexists; reflexivity].
  cbn [bind]. rewrite !guarded_truediv_int. cbn [bind].
  assert (Hr : In r (filter late (AddTradelinePerformance.repayments_of s
              (map AIAgentAllocation.id
                 (active_allocations s (Tradeline.id tradeline)))))).
  { apply filter_In. split; [| exact Hlate].
    unfold AddTradelinePerformance.repayments_of. apply filter_In. now split. }
  destruct (filter late _) as [| r0 rs]; [destruct Hr |].
  cbn. eexists; reflexivity.
Qed.

(** A successful flush leaves the store as it was. *)
Lemma flush_ok (s s' : DB)
  (pending : list AddTradelinePerformance.TradelinePerformance) :
  AddTradelinePerformance.flush s pending = Ok s' -> s' = s /\ pending = [].
Proof.
  unfold AddTradelinePerformance.flush.
  destruct pending; cbn; [now intros [= <-] | discriminate].
Qed.

Lemma create_loop_raises (s : DB) (now : datetime)
  (tradeline : Tradeline.t) (r : Repayment.t) :
  active_allocations s (Tradeline.id tradeline) <> [] ->
  completed_transactions s
    (map AIAgentAllocation.id (active_allocations s (Tradeline.id tradeline)))
  <> [] ->
  In r (repayments s) ->
  in_ (Repayment.tradeline_allocation_id r)
      (map AIAgentAllocation.id (active_allocations s (Tradeline.id tradeline)))
  = true ->
  late r = true ->
  forall (tls : list Tradeline.t)
         (pending : list AddTradelinePerformance.TradelinePerformance)
         (acc : Z),
    In tradeline tls ->
    exists e,
      AddTradelinePerformance.create_loop s now tls pending acc = Raise e.
Proof.
  intros Hact Htx Hin Hscope Hlate.
  destruct (migration_record_raises s now tradeline r Hact Htx Hin Hscope Hlate)
    as [e0 Hbody].
  induction tls as [| tl0 tls IH]; intros pending acc Hmem; [destruct Hmem |].
  cbn [AddTradelinePerformance.create_loop].
  destruct (AddTradelinePerformance.flush s pending) as [s1 | e] eqn:Hflush;
    cbn [bind]; [| eexists; reflexivity].
  apply flush_ok in Hflush as [Hs1 _]. subst s1.
  destruct (AddTradelinePerformance.performance_record s now tl0)
    as [[p |] | e] eqn:E; cbn [bind]; [| | eexists; reflexivity].
  - destruct Hmem as [-> | Hmem]; [congruence | now apply IH].
  - destruct Hmem as [-> | Hmem]; [congruence | now apply IH].
Qed.

(** X24.  The migration is all or nothing: one tradeline with activity and a
    late repayment on an active allocation makes [create_performance_records]
    raise, so that no record is created for any tradeline. *)
Theorem migration_fails_on_a_late_repayment (s : DB) (now : datetime)
  (tradeline : Tradeline.t) (r : Repayment.t) :
  In tradeline (tradelines s) ->
  active_allocations s (Tradeline.id tradeline) <> [] ->
  completed_transactions s
    (map AIAgentAllocation.id (active_allocations s (Tradeline.id tradeline)))
  <> [] ->
  In r (repayments s) ->
  in_ (Repayment.tradeline_allocation_id r)
      (map AIAgentAllocation.id (active_allocations s (Tradeline.id tradeline)))
  = true ->
  late r = true ->
  exists e, AddTradelinePerformance.create_performance_records s now = Raise e.
Proof.
  intros Hmem Hact Htx Hin Hscope Hlate.
  unfold AddTradelinePerformance.create_performance_records.
  destruct (create_loop_raises s now tradeline r Hact Htx Hin Hscope Hlate
              (tradelines s) [] 0 Hmem) as [e He].
  rewrite He. eexists; reflexivity.
Qed.

Lemma migration_fails_on_a_late_repayment_witness :
  exists e,
    AddTradelinePerformance.create_performance_records
      Scenario.with_late_repayment Scenario.now
    = Raise e.
Proof.
  apply (migration_fails_on_a_late_repayment Scenario.with_late_repayment
           Scenario.now Scenario.tradeline Scenario.paid_late).
  - now left.
  - vm_compute. discriminate.
  - vm_compute. discriminate.
  - now left.
  - reflexivity.
  - reflexivity.
Defined.

(** The loop counts what it leaves pending. *)
Lemma create_loop_counts (s : DB) (now : datetime) (tls : list Tradeline.t) :
  forall (pending pending' : list AddTradelinePerformance.TradelinePerformance)
         (acc n : Z),
    AddTradelinePerformance.create_loop s now tls pending acc
    = Ok (n, pending') ->
    n - len pending' = acc - len pending.
Proof.
  induction tls as [| tl0 tls IH]; intros pending pending' acc n.
  - cbn. now intros [= <- <-].
  - cbn [AddTradelinePerformance.create_loop].
    destruct (AddTradelinePerformance.flush s pending) as [s1 | e] eqn:Hflush;
      cbn [bind]; [| discriminate].
    apply flush_ok in Hflush as [Hs1 ->]. subst s1.
    destruct (AddTradelinePerformance.performance_record s now tl0)
      as [[p |] | e]; cbn [bind]; [| | discriminate].
    + intros H. apply IH in H. unfold len in *. cbn in *. lia.
    + apply IH.
Qed.

(** While no tradeline yields a record, the loop goes on with what it had. *)
Lemma create_loop_skips (s : DB) (now : datetime)
  (before rest : list Tradeline.t) (acc : Z) :
  (forall tl, In tl before ->
              AddTradelinePerformance.performance_record s now tl = Ok None) ->
  AddTradelinePerformance.create_loop s now (before ++ rest) [] acc
  = AddTradelinePerformance.create_loop s now rest [] acc.
Proof.
  induction before as [| tl0 before IH]; intros H; [reflexivity |].
  rewrite <- app_comm_cons. cbn [AddTradelinePerformance.create_loop].
  unfold AddTradelinePerformance.flush at 1. cbn [truthy bind].
  rewrite (H tl0 (or_introl eq_refl)). cbn [bind].
  apply IH. intros tl Hin. apply H. now right.
Qed.

(** X25.  [create_performance_records] never stores a record and never
    reports one: it returns 0 with the store as it was, or it raises.  When
    a tradeline is the first to yield a record, the function returns 0 if
    that tradeline is the last one (the commit fails and is rolled back),
    and raises NoReferencedTableError if another tradeline follows (the
    next query flushes the session). *)
Theorem migration_never_stores_a_record (s : DB) (now : datetime) :
  (AddTradelinePerformance.create_performance_records s now = Ok (0, s)
   \/ exists e,
        AddTradelinePerformance.create_performance_records s now = Raise e)
  /\ forall (before after : list Tradeline.t) (tradeline : Tradeline.t)
            (p : AddTradelinePerformance.TradelinePerformance),
       tradelines s = (before ++ tradeline :: after)%list ->
       (forall tl, In tl before ->
          AddTradelinePerformance.performance_record s now tl = Ok None) ->
       AddTradelinePerformance.performance_record s now tradeline
       = Ok (Some p) ->
       AddTradelinePerformance.create_performance_records s now
       = match after with
         | [] => Ok (0, s)
         | _ :: _ => Raise NoReferencedTableError
         end.
Proof.
  split.
  - unfold AddTradelinePerformance.create_performance_records.
    destruct (AddTradelinePerformance.create_loop s now (tradelines s) [] 0)
      as [[n pending] | e] eqn:Hloop; cbn [bind];
      [| right; eexists; reflexivity].
    left. apply create_loop_counts in Hloop.
    unfold AddTradelinePerformance.flush.
    destruct pending as [| q pending]; cbn [truthy]; [| reflexivity].
    cbn in Hloop. replace n with 0 by lia. reflexivity.
  - intros before after tradeline p Htls Hbefore Hrecord.
    unfold AddTradelinePerformance.create_performance_records.
    rewrite Htls, (create_loop_skips s now before _ 0 Hbefore).
    cbn [AddTradelinePerformance.create_loop
         AddTradelinePerformance.flush truthy bind].
    rewrite Hrecord. cbn [bind app].
    destruct after as [| tl1 after]; reflexivity.
Qed.

Lemma migration_never_stores_a_record_witness :
  AddTradelinePerformance.create_performance_records Scenario.one_purchase
    Scenario.now
  = Ok (0, Scenario.one_purchase)
  /\ AddTradelinePerformance.create_performance_records two_active_tradelines
       Scenario.now
     = Raise NoReferencedTableError.
Proof.
  split.
  - eapply (proj2 (migration_never_stores_a_record Scenario.one_purchase
                     Scenario.now) [] [] Scenario.tradeline).
    + reflexivity.
    + intros tl [].
    + vm_compute. reflexivity.
  - eapply (proj2 (migration_never_stores_a_record two_active_tradelines
                     Scenario.now) [] [second_tradeline] Scenario.tradeline).
    + reflexivity.
    + intros tl [].
    + vm_compute. reflexivity.
Defined.
